(** * databricks-util: registry enrichment and fiscal-variable lookup

    A shallow embedding of

    - [identifica_obligados_facturar/FE_annotate_RUT_y_210.py]
      ([extraer_responsabilidades_rut]), and
    - [variables/post_proceso_consultas.py] ([lookup_name_by_year]),

    followed by the properties of both that the specification states.

    Conventions.  A Python [str] is a Rocq [string]; whitespace, digits and
    letter case are those of the ASCII range, other bytes are carried
    unchanged.  Python and SQL integers are [Z], without bound.  A nullable
    column value ([None], [NaN], [pd.NA], SQL [NULL]) is an [option]; a
    float of the metadata sheet is carried by what the code observes of it.  A Spark or pandas frame is the list of its rows in one
    fixed order, so that a window's [orderBy] is a stable sort.  The [spark]
    session and the metadata sheet are parameters: nothing is assumed of
    what a query returns or of what the sheet holds. *)

From Stdlib Require Import ZArith List String Ascii Bool Lia Sorted DecimalString.
From Stdlib Require Import DecimalPos.
Import ListNotations.

Local Open Scope string_scope.
Local Open Scope list_scope.

(** ** Python values shared by both files *)

Module Py.

(** Exceptions, tagged by where they arise: [TypeError], [ValueError] and
    [AttributeError] are raised by the Python code itself or by what it
    calls in Python and pandas, [SparkError] is whatever the [spark]
    collaborator raised, propagated unmodified. *)
Inductive exc : Type :=
| TypeError (msg : string)
| ValueError (msg : string)
| AttributeError (name : string)
| SparkError (msg : string).

Definition result (A : Type) : Type := (exc + A)%type.

Definition bind {A B : Type} (r : result A) (k : A -> result B) : result B :=
  match r with
  | inl e => inl e
  | inr a => k a
  end.

(** [str(n)] for an [int]. *)
Definition str_of_int (z : Z) : string := NilZero.string_of_int (Z.to_int z).

(** [str(v)] for a value taken out of a collected [Row] of an integer
    column: an [int], or [None] for a NULL. *)
Definition str_of_cell (c : option Z) : string :=
  match c with
  | None => "None"
  | Some z => str_of_int z
  end.

Definition lower (c : ascii) : ascii :=
  let n := nat_of_ascii c in
  if ((65 <=? n) && (n <=? 90))%nat then ascii_of_nat (n + 32) else c.

Definition is_digit (c : ascii) : bool :=
  let n := nat_of_ascii c in ((48 <=? n) && (n <=? 57))%nat.

(** [str.isspace] on the ASCII range: TAB, LF, VT, FF, CR, FS, GS, RS, US
    and the space. *)
Definition is_space (c : ascii) : bool :=
  let n := nat_of_ascii c in
  (((9 <=? n) && (n <=? 13)) || ((28 <=? n) && (n <=? 32)))%nat.

Definition not_space (c : ascii) : bool := negb (is_space c).

Fixpoint lstrip (s : string) : string :=
  match s with
  | EmptyString => EmptyString
  | String c s' => if is_space c then lstrip s' else s
  end.

(** [s.rstrip()] when [p] is [is_space]; [s.rstrip("_")] when [p] tests
    for the underscore. *)
Fixpoint rstrip_by (p : ascii -> bool) (s : string) : string :=
  match s with
  | EmptyString => EmptyString
  | String c s' =>
      match rstrip_by p s' with
      | EmptyString => if p c then EmptyString else String c EmptyString
      | t => String c t
      end
  end.

Definition strip (s : string) : string := rstrip_by is_space (lstrip s).

Fixpoint map_string (f : ascii -> ascii) (s : string) : string :=
  match s with
  | EmptyString => EmptyString
  | String c s' => String (f c) (map_string f s')
  end.

(** [s.casefold()] / [s.lower()] on the ASCII range. *)
Definition casefold : string -> string := map_string lower.

End Py.

Notation "x <- e ;; k" := (Py.bind e (fun x => k))
(at level 61, e at next level, right associativity).

(** ** Spark frames as lists of rows *)

Module Spark.

(** Grouping and [partitionBy] put all NULL keys in one group. *)
Definition key_eqb (a b : option Z) : bool :=
  match a, b with
  | None, None => true
  | Some x, Some y => (x =? y)%Z
  | _, _ => false
  end.

(** Join and [==] conditions: a NULL on either side never matches. *)
Definition sql_eqb (a b : option Z) : bool :=
  match a, b with
  | Some x, Some y => (x =? y)%Z
  | _, _ => false
  end.

(** [distinct()], first occurrences kept. *)
Fixpoint distinct (l : list (option Z)) : list (option Z) :=
  match l with
  | [] => []
  | k :: l' => k :: filter (fun k' => negb (key_eqb k k')) (distinct l')
  end.

(** [col == lit] on a nullable boolean column. *)
Definition col_eq_lit (c : option bool) (lit : bool) : option bool :=
  option_map (Bool.eqb lit) c.

(** [F.when(cond, a).otherwise(b)]: only a condition that evaluates to
    true takes the branch, NULL and false fall through. *)
Definition when_otherwise {A : Type} (cond : option bool) (a b : A) : A :=
  match cond with
  | Some true => a
  | _ => b
  end.

Fixpoint prefix_ci (pat s : string) : bool :=
  match pat, s with
  | EmptyString, _ => true
  | String _ _, EmptyString => false
  | String p pat', String c s' =>
      Ascii.eqb (Py.lower p) (Py.lower c) && prefix_ci pat' s'
  end.

Fixpoint find_ci (pat s : string) : bool :=
  prefix_ci pat s ||
  match s with
  | EmptyString => false
  | String _ s' => find_ci pat s'
  end.

(** [col.rlike("(?i)" + pat)] for a pattern of literal characters: the
    pattern is found somewhere in the value, letters compared without
    case; NULL on a NULL value. *)
Definition rlike_ci (c : option string) (pat : string) : option bool :=
  option_map (find_ci pat) c.

Section Window.
Context {A : Type}.
Variable key : A -> option Z.
(** [before x y]: [x] may stand before [y] in the window's order. *)
Variable before : A -> A -> bool.

Fixpoint insert (x : A) (l : list A) : list A :=
  match l with
  | [] => [x]
  | y :: l' => if before x y then x :: l else y :: insert x l'
  end.

(** [orderBy]: a stable sort. *)
Definition sort (l : list A) : list A := fold_right insert [] l.

Definition partition_of (k : option Z) (df : list A) : list A :=
  filter (fun r => key_eqb k (key r)) df.

Definition enumerate_from (n : nat) (l : list A) : list (A * nat) :=
  combine l (seq n (List.length l)).

(** [withColumn(c, F.row_number().over(Window.partitionBy(key).orderBy(..)))]:
    every partition sorted and numbered from 1. *)
Definition row_number_over (df : list A) : list (A * nat) :=
  flat_map (fun k => enumerate_from 1 (sort (partition_of k df)))
           (distinct (map key df)).

(** [.filter(F.col(c) == 1).drop(c)] *)
Definition keep_first_ranked (ranked : list (A * nat)) : list A :=
  map fst (filter (fun rr => (snd rr =? 1)%nat) ranked).
End Window.

(** [F.monotonically_increasing_id()]: ids grow along the frame. *)
Definition with_increasing_id {A : Type} (df : list A) : list (A * nat) :=
  combine df (seq 0 (List.length df)).

End Spark.

(** ** identifica_obligados_facturar/FE_annotate_RUT_y_210.py *)

Module Rut.
Import Py Spark.

(** The caller's frame: named columns of nullable integers (for a pandas
    frame, columns that hold Python integers and [None]), looked up by
    their exact names and taken not to clash with the registry's.  A row
    shorter than the schema reads as NULL in the missing places. *)
Record DataFrame : Type := {
  columns : list string;
  rows : list (list (option Z))
}.

(** One row of [int_personas], with the nine columns the query selects. *)
Record RegistryRow : Type := {
  NUM_NIT : option Z;
  FEC_CAMBIO : option Z;
  IND_TIENE_RESP_47 : option bool;
  IND_TIENE_RESP_48 : option bool;
  IND_TIENE_RESP_33 : option bool;
  IND_TIENE_RESP_16 : option bool;
  IND_TIENE_RESP_52 : option bool;
  NOM_TIPO_CONTRIBUYENTE : option string;
  NUM_ESTABLECIMIENTOS : option Z
}.

(** The [spark] argument: [spark.sql(query)] and
    [spark.createDataFrame(pandas_df)], each returning the message of the
    error it raised or its result. *)
Record SparkSession : Type := {
  sql : string -> string + list RegistryRow;
  createDataFrame : DataFrame -> string + DataFrame
}.

Definition from_spark {A : Type} (r : string + A) : result A :=
  match r with
  | inl msg => inl (SparkError msg)
  | inr a => inr a
  end.

(** What the function can be handed as [input_spark_df]: a Spark frame (or
    an object that implements a Spark frame's methods), a pandas frame, or
    any other object, given by the names of its attributes, which are plain
    data and cannot be called. *)
Inductive py_object : Type :=
| SparkDataFrame (df : DataFrame)
| PandasDataFrame (df : DataFrame)
| OtherObject (attrs : list string).

Definition mem (name : string) (l : list string) : bool :=
  existsb (String.eqb name) l.

(** [hasattr(o, "select")].  [select] is a method of a Spark frame; a pandas
    frame has none, but exposes its columns as attributes. *)
Definition hasattr_select (o : py_object) : bool :=
  match o with
  | SparkDataFrame _ => true
  | PandasDataFrame df => mem "select" (columns df)
  | OtherObject attrs => mem "select" attrs
  end.

Definition msg_input_shape : string :=
  "input_spark_df debe ser un Spark DataFrame o un pandas DataFrame.".

(** Lines 21-27: the conversion guard. *)
Definition convertir_entrada (input_spark_df : py_object) (spark : SparkSession)
  : result py_object :=
  if negb (hasattr_select input_spark_df) then
    match input_spark_df with
    | PandasDataFrame pdf =>
        df <- from_spark (createDataFrame spark pdf) ;;
        inr (SparkDataFrame df)
    | _ => inl (TypeError msg_input_shape)
    end
  else inr input_spark_df.

(** Line 28, [input_spark_df.printSchema()]: on anything but a Spark frame
    the attribute is missing, or is a column or data attribute and cannot
    be called. *)
Definition printSchema (o : py_object) : result DataFrame :=
  match o with
  | SparkDataFrame df => inr df
  | PandasDataFrame df =>
      if mem "printSchema" (columns df)
      then inl (TypeError "'Series' object is not callable")
      else inl (AttributeError "printSchema")
  | OtherObject attrs =>
      if mem "printSchema" attrs
      then inl (TypeError "object is not callable")
      else inl (AttributeError "printSchema")
  end.

Fixpoint column_index (name : string) (cols : list string) : option nat :=
  match cols with
  | [] => None
  | c :: cols' =>
      if String.eqb name c then Some 0%nat
      else option_map S (column_index name cols')
  end.

Definition cell (i : nat) (row : list (option Z)) : option Z := nth i row None.

(** [row[name]] for a row of [df]; NULL when [df] has no such column. *)
Definition field (df : DataFrame) (name : string) (row : list (option Z))
  : option Z :=
  match column_index name (columns df) with
  | Some i => cell i row
  | None => None
  end.

(** [df.select(name)]: the analysis fails on an unknown column. *)
Definition select (df : DataFrame) (name : string) : result (list (option Z)) :=
  match column_index name (columns df) with
  | Some i => inr (map (cell i) (rows df))
  | None => inl (SparkError (String.append "cannot resolve column " name))
  end.

(** Lines 35-39, the text handed to [spark.sql]. *)
Definition query_int_personas (nits_str_B_df : string) : string :=
  ("
    SELECT DISTINCT NUM_NIT, FEC_CAMBIO, IND_TIENE_RESP_47, IND_TIENE_RESP_48, IND_TIENE_RESP_33, IND_TIENE_RESP_16, IND_TIENE_RESP_52, NOM_TIPO_CONTRIBUYENTE, NUM_ESTABLECIMIENTOS
    FROM cat_prod.sq_silver_negocio_transversal.int_personas
    WHERE NUM_NIT IN (" ++ nits_str_B_df ++ ")
    ")%string.

(** Lines 47-52: [groupBy('NUM_NIT').count()], then the keys counted more
    than once. *)
Definition groupBy_count (df : list RegistryRow) : list (option Z * nat) :=
  map (fun k => (k, List.length (partition_of NUM_NIT k df)))
      (distinct (map NUM_NIT df)).

Definition duplicated_nits_df (df : list RegistryRow) : list (option Z) :=
  map fst (filter (fun kc => (1 <? snd kc)%nat) (groupBy_count df)).

(** [df.join(keys, on='NUM_NIT', how='left_anti')] *)
Definition join_left_anti (df : list RegistryRow) (keys : list (option Z))
  : list RegistryRow :=
  filter (fun r => negb (existsb (sql_eqb (NUM_NIT r)) keys)) df.

(** [df.join(keys, on='NUM_NIT', how='inner')]: one output row per matching
    pair. *)
Definition join_inner (df : list RegistryRow) (keys : list (option Z))
  : list RegistryRow :=
  flat_map (fun r => map (fun _ => r) (filter (sql_eqb (NUM_NIT r)) keys)) df.

Definition df_non_dupes (df : list RegistryRow) : list RegistryRow :=
  join_left_anti df (duplicated_nits_df df).

Definition df_dupes (df : list RegistryRow) : list RegistryRow :=
  join_inner df (duplicated_nits_df df).

(** [a <= b] on nullable dates, NULL below every date. *)
Definition fec_leb (a b : option Z) : bool :=
  match a, b with
  | None, _ => true
  | Some _, None => false
  | Some x, Some y => (x <=? y)%Z
  end.

(** [F.col("FEC_CAMBIO").desc()]: later dates first, NULL dates last. *)
Definition fec_cambio_desc (x y : RegistryRow) : bool :=
  fec_leb (FEC_CAMBIO y) (FEC_CAMBIO x).

(** Lines 64-72. *)
Definition df_dupes_ranked (df : list RegistryRow) : list (RegistryRow * nat) :=
  row_number_over NUM_NIT fec_cambio_desc (df_dupes df).

Definition df_dupes_cleaned (df : list RegistryRow) : list RegistryRow :=
  keep_first_ranked (df_dupes_ranked df).

Definition by_increasing_id (x y : RegistryRow * nat) : bool :=
  (snd x <=? snd y)%nat.

(** Lines 84-87: the first occurrence of every [NUM_NIT] is kept. *)
Definition drop_duplicates_first (df : list RegistryRow) : list RegistryRow :=
  map fst
      (keep_first_ranked
         (row_number_over (fun ri => NUM_NIT (fst ri)) by_increasing_id
                          (with_increasing_id df))).

(** Lines 81-87: the registry rows after resolution. *)
Definition df_infor_rut_int_personas_clean (df : list RegistryRow)
  : list RegistryRow :=
  drop_duplicates_first (df_non_dupes df ++ df_dupes_cleaned df).

(** Lines 90-93. *)
Definition marca_resp_52_of (r : RegistryRow) : string :=
  when_otherwise (col_eq_lit (IND_TIENE_RESP_52 r) true) "SÍ" "No".

(** Lines 100-105. *)
Definition normalizar_tipo (c : option string) : option string :=
  when_otherwise (rlike_ci c "persona nat") (Some "Persona Natural")
    (when_otherwise (rlike_ci c "persona jur") (Some "Persona Jurídica") c).

Definition with_NOM_TIPO_CONTRIBUYENTE (v : option string) (r : RegistryRow)
  : RegistryRow :=
  {| NUM_NIT := NUM_NIT r;
     FEC_CAMBIO := FEC_CAMBIO r;
     IND_TIENE_RESP_47 := IND_TIENE_RESP_47 r;
     IND_TIENE_RESP_48 := IND_TIENE_RESP_48 r;
     IND_TIENE_RESP_33 := IND_TIENE_RESP_33 r;
     IND_TIENE_RESP_16 := IND_TIENE_RESP_16 r;
     IND_TIENE_RESP_52 := IND_TIENE_RESP_52 r;
     NOM_TIPO_CONTRIBUYENTE := v;
     NUM_ESTABLECIMIENTOS := NUM_ESTABLECIMIENTOS r |}.

(** A row of the returned frame: the caller's columns, then the registry's
    nine, then [marca_resp_52]. *)
Record JoinedRow : Type := {
  entrada : list (option Z);
  registro : RegistryRow;
  marca_resp_52 : string
}.

(** Lines 96-105: the inner join on
    [numero_identificacion == NUM_NIT], then the rewrite of
    [NOM_TIPO_CONTRIBUYENTE]. *)
Definition df_joined_final (input : DataFrame) (clean : list RegistryRow)
  : list JoinedRow :=
  flat_map
    (fun row =>
       map (fun r =>
              {| entrada := row;
                 registro :=
                   with_NOM_TIPO_CONTRIBUYENTE
                     (normalizar_tipo (NOM_TIPO_CONTRIBUYENTE r)) r;
                 marca_resp_52 := marca_resp_52_of r |})
           (filter (fun r => sql_eqb (field input "numero_identificacion" row)
                                     (NUM_NIT r))
                   clean))
    (rows input).

Definition extraer_responsabilidades_rut
  (input_spark_df : py_object) (nombre_campo_rut : string)
  (spark : SparkSession) (dbutils : unit) : result (list JoinedRow) :=
  o <- convertir_entrada input_spark_df spark ;;
  input <- printSchema o ;;
  ids <- select input "numero_identificacion" ;;
  let nits_list := map str_of_cell (distinct ids) in
  let nits_str_B_df := String.concat ", " nits_list in
  df_infor_rut_int_personas <-
    from_spark (sql spark (query_int_personas nits_str_B_df)) ;;
  inr (df_joined_final input
         (df_infor_rut_int_personas_clean df_infor_rut_int_personas)).

(** [isinstance(o, pd.DataFrame)] and its Spark counterpart. *)
Definition isinstance_pandas (o : py_object) : bool :=
  match o with
  | PandasDataFrame _ => true
  | _ => false
  end.

Definition isinstance_spark (o : py_object) : bool :=
  match o with
  | SparkDataFrame _ => true
  | _ => false
  end.

(** [a < b] on nullable dates. *)
Definition fec_ltb (a b : option Z) : bool := negb (fec_leb b a).

(** The rows of the returned frame that carry identifier [n], and the
    caller's rows that do. *)
Definition rows_of_identifier (n : Z) (out : list JoinedRow) : list JoinedRow :=
  filter (fun j => sql_eqb (Some n) (NUM_NIT (registro j))) out.

Definition input_rows_of_identifier (n : Z) (input : DataFrame)
  : list (list (option Z)) :=
  filter (fun row => sql_eqb (Some n) (field input "numero_identificacion" row))
         (rows input).

End Rut.

(** ** variables/post_proceso_consultas.py *)

Module Variables.
Import Py.

(** A float cell, by what the code can see of it: [f.is_integer()], [int(f)]
    and [str(f)].  NaN is not among them: a missing cell is [PNa]. *)
Record pyfloat : Type := {
  float_is_integer : bool;
  float_int : Z;
  float_repr : string
}.

(** A cell of the metadata sheet: missing ([NaN], [None], [pd.NA]), an
    integer, a float or a text. *)
Inductive pyval : Type :=
| PNa
| PInt (z : Z)
| PFloat (f : pyfloat)
| PStr (s : string).

(** [str(v)] and [.astype(str)]. *)
Definition str_of (v : pyval) : string :=
  match v with
  | PNa => "nan"
  | PInt z => str_of_int z
  | PFloat f => float_repr f
  | PStr s => s
  end.

(** [pd.notna(v)] *)
Definition notna (v : pyval) : bool :=
  match v with
  | PNa => false
  | _ => true
  end.

(** A row of [DF_METADATA]: the four columns the lookup filters on, under
    their names without accents, and every other column by name. *)
Record MetadataRow : Type := {
  Codigo_del_Formato : pyval;
  Codigo_de_la_Variable : pyval;
  Ano_Gravable_Desde : pyval;
  Ano_Gravable_Hasta : pyval;
  otras : list (string * pyval)
}.

(** *** The pattern of line 106: start, any characters (group 1), the
    token VAR_, one or more digits (group 2), end; under [re.IGNORECASE] *)

Definition is_newline (c : ascii) : bool := Ascii.eqb c "010"%char.

Fixpoint all_digits (s : string) : bool :=
  match s with
  | EmptyString => true
  | String c s' => is_digit c && all_digits s'
  end.

(** The token and the digits up to the end, matched right here: the digits
    of group 2. *)
Definition match_VAR_digits (s : string) : option string :=
  match s with
  | String v (String a (String r (String u (String d ds)))) =>
      if Ascii.eqb (lower v) "v"%char && Ascii.eqb (lower a) "a"%char
         && Ascii.eqb (lower r) "r"%char && Ascii.eqb u "_"%char
         && all_digits (String d ds)
      then Some (String d ds) else None
  | _ => None
  end.

(** [re.search] of that pattern in a trimmed [s], where the end anchor can
    only be the end of [s]: groups 1 and 2.  The greedy group 1 takes every
    character it can (never a newline) and gives back only when the rest
    does not match. *)
Fixpoint re_search_VAR (s : string) : option (string * string) :=
  match s with
  | EmptyString => None
  | String c s' =>
      let here := option_map (pair EmptyString) (match_VAR_digits s) in
      if is_newline c then here
      else match re_search_VAR s' with
           | Some (g1, g2) => Some (String c g1, g2)
           | None => here
           end
  end.

Definition digit_value (c : ascii) : Z := Z.of_nat (nat_of_ascii c) - 48.

(** No newline in [s]: what a run of [.] can match. *)
Fixpoint no_newline (s : string) : bool :=
  match s with
  | EmptyString => true
  | String c s' => negb (is_newline c) && no_newline s'
  end.

(** The number a run of digits denotes. *)
Definition int_of_digits (s : string) : Z :=
  fold_left (fun acc c => 10 * acc + digit_value c)%Z (list_ascii_of_string s) 0%Z.

(** [sys.get_int_max_str_digits()], as the interpreter starts with it. *)
Definition int_max_str_digits : nat := 4300.

Definition msg_int_limit (digits : nat) : string :=
  ("Exceeds the limit (4300 digits) for integer string conversion: value has "
   ++ str_of_int (Z.of_nat digits)
   ++ " digits; use sys.set_int_max_str_digits() to increase the limit")%string.

(** [int(digits)]: the interpreter refuses a run of more digits than its
    limit, leading zeros counted. *)
Definition py_int (digits : string) : result Z :=
  if (int_max_str_digits <? String.length digits)%nat
  then inl (ValueError (msg_int_limit (String.length digits)))
  else inr (int_of_digits digits).

(** Lines 106-111: prefix and variable number of a code; [None] stands for
    the early [return None]. *)
Definition parse_var_code (var_code : string) : result (option (string * Z)) :=
  match re_search_VAR (strip var_code) with
  | None => inr None
  | Some (prefix_raw, digits) =>
      let prefix := rstrip_by (Ascii.eqb "_"%char) prefix_raw in
      var_number <- py_int digits ;;
      inr (Some (prefix, var_number))
  end.

(** *** Nullable booleans of a pandas mask *)

Definition na_and (a b : option bool) : option bool :=
  match a, b with
  | Some false, _ | _, Some false => Some false
  | Some true, Some true => Some true
  | _, _ => None
  end.

Definition na_or (a b : option bool) : option bool :=
  match a, b with
  | Some true, _ | _, Some true => Some true
  | Some false, Some false => Some false
  | _, _ => None
  end.

(** [d.loc[mask]]: the rows whose mask is [True]; [pd.NA] selects nothing. *)
Definition loc {A : Type} (mask : A -> option bool) (d : list A) : list A :=
  filter (fun r => match mask r with Some true => true | _ => false end) d.

Fixpoint assoc (col : string) (l : list (string * pyval)) : option pyval :=
  match l with
  | [] => None
  | (c, v) :: l' => if String.eqb col c then Some v else assoc col l'
  end.

Definition default_compose_fields : list string :=
  ["Descripción de la Variable"; "Número Casilla";
   "Año Gravable Desde"; "Año Gravable Hasta"].

Definition default_sep : string := "_".

Record Meta : Type := { prefix : string; var_number : Z }.

Record Resolved : Type := {
  name_var : pyval;
  composed_name : option string;
  meta : Meta
}.

(** *** The cast to [Int64] *)

Definition in_int64 (z : Z) : bool :=
  ((- 2 ^ 63 <=? z) && (z <=? 2 ^ 63 - 1))%Z.

(** Whether [.astype('Int64')] takes a value of a numeric column: NaN
    becomes [pd.NA], a number must be whole and fit 64 bits. *)
Definition safe_cast (n : option (Z + pyfloat)) : bool :=
  match n with
  | None => true
  | Some (inl z) => in_int64 z
  | Some (inr f) => float_is_integer f && in_int64 (float_int f)
  end.

Definition cast (n : option (Z + pyfloat)) : option Z :=
  match n with
  | None => None
  | Some (inl z) => Some z
  | Some (inr f) => Some (float_int f)
  end.

Definition msg_unsafe_cast : string :=
  "cannot safely cast non-equivalent float64 to int64".

(** [column.astype('Int64')]: one value that cannot be cast fails the whole
    column. *)
Definition astype_Int64 (column : list (option (Z + pyfloat)))
  : result (list (option Z)) :=
  if forallb safe_cast column then inr (map cast column)
  else inl (TypeError msg_unsafe_cast).

(** A row of [d], the normalized copy of the sheet (lines 113-125). *)
Record NormalizedRow : Type := {
  source : MetadataRow;
  variable : option Z;
  desde : option Z;
  hasta : option Z
}.

(** The rows of the sheet with the three columns that were cast. *)
Fixpoint assemble (rows : list MetadataRow) (variables desdes hastas : list (option Z))
  : list NormalizedRow :=
  match rows, variables, desdes, hastas with
  | r :: rows', v :: vs, d :: ds, h :: hs =>
      {| source := r; variable := v; desde := d; hasta := h |}
        :: assemble rows' vs ds hs
  | _, _, _, _ => []
  end.

Section Lookup.

(** The sheet loaded at import time. *)
Variable DF_METADATA : list MetadataRow.
(** [pd.Timestamp.today().year] *)
Variable today_year : Z.
(** How [pd.to_numeric(.., errors='coerce')] reads a text cell: the integer
    or the float it denotes, or nothing for a text that is not a number. *)
Variable to_numeric_text : string -> option (Z + pyfloat).

(** [pd.to_numeric(v, errors='coerce')] on one cell: a number, or NaN.  An
    integer is taken to keep its value when pandas holds its column as
    floats. *)
Definition to_numeric (v : pyval) : option (Z + pyfloat) :=
  match v with
  | PNa => None
  | PInt z => Some (inl z)
  | PFloat f => Some (inr f)
  | PStr s => to_numeric_text s
  end.

(** Line 117. *)
Definition mask_vig (v : pyval) : bool :=
  String.eqb (casefold (strip (str_of v))) "vigente".

(** Line 118: the last year of a row, after [d.loc[mask_vig, col] =
    current_year]. *)
Definition hasta_vigente (current_year : Z) (r : MetadataRow) : pyval :=
  if mask_vig (Ano_Gravable_Hasta r) then PInt current_year
  else Ano_Gravable_Hasta r.

(** Lines 113-125: the three columns are coerced and cast one after the
    other. *)
Definition normalize_sheet (current_year : Z) : result (list NormalizedRow) :=
  hastas <- astype_Int64
              (map (fun r => to_numeric (hasta_vigente current_year r))
                   DF_METADATA) ;;
  desdes <- astype_Int64
              (map (fun r => to_numeric (Ano_Gravable_Desde r)) DF_METADATA) ;;
  variables <- astype_Int64
                 (map (fun r => to_numeric (Codigo_de_la_Variable r))
                      DF_METADATA) ;;
  inr (assemble DF_METADATA variables desdes hastas).

(** Whether the three casts go through on the sheet. *)
Definition casts_safely (current_year : Z) : bool :=
  forallb (fun r => safe_cast (to_numeric (hasta_vigente current_year r)))
          DF_METADATA
  && forallb (fun r => safe_cast (to_numeric (Ano_Gravable_Desde r)))
             DF_METADATA
  && forallb (fun r => safe_cast (to_numeric (Codigo_de_la_Variable r)))
             DF_METADATA.

(** What a row of the sheet becomes in [d] when they do. *)
Definition normalize (current_year : Z) (r : MetadataRow) : NormalizedRow :=
  {| source := r;
     variable := cast (to_numeric (Codigo_de_la_Variable r));
     desde := cast (to_numeric (Ano_Gravable_Desde r));
     hasta := cast (to_numeric (hasta_vigente current_year r)) |}.

(** [column == format_id] on the untouched format column: an integer or a
    whole float equal to [format_id]. *)
Definition eq_format (v : pyval) (format_id : Z) : bool :=
  match v with
  | PInt z => (z =? format_id)%Z
  | PFloat f => float_is_integer f && (float_int f =? format_id)%Z
  | _ => false
  end.

Definition isna (o : option Z) : bool :=
  match o with
  | None => true
  | Some _ => false
  end.

(** Lines 128-134. *)
Definition mask (format_id var_number anogravable : Z) (r : NormalizedRow)
  : option bool :=
  na_and
    (na_and
       (na_and
          (na_and (Some (eq_format (Codigo_del_Formato (source r)) format_id))
                  (option_map (fun v => (v =? var_number)%Z) (variable r)))
          (Some (negb (isna (desde r)))))
       (option_map (fun y => (y <=? anogravable)%Z) (desde r)))
    (na_or (Some (isna (hasta r)))
           (option_map (fun y => (anogravable <=? y)%Z) (hasta r))).

Definition of_nullable (o : option Z) : pyval :=
  match o with
  | Some z => PInt z
  | None => PNa
  end.

(** [row.get(col)]: the value under [col], [None] for an unknown column. *)
Definition row_get (row : NormalizedRow) (col : string) : pyval :=
  if String.eqb col "Código del Formato" then Codigo_del_Formato (source row)
  else if String.eqb col "Código de la Variable" then of_nullable (variable row)
  else if String.eqb col "Año Gravable Desde" then of_nullable (desde row)
  else if String.eqb col "Año Gravable Hasta" then of_nullable (hasta row)
  else match assoc col (otras (source row)) with
       | Some v => v
       | None => PNa
       end.

(** Lines 152-156: the loop that fills [parts]. *)
Definition collect_parts (row : NormalizedRow) (compose_fields : list string)
  : list string :=
  fold_left
    (fun parts col =>
       let val := row_get row col in
       if notna val then parts ++ [strip (str_of val)] else parts)
    compose_fields [].

(** Line 159. *)
Definition compose (sep : string) (parts : list string) : option string :=
  match parts with
  | [] => None
  | _ :: _ => Some (String.concat sep parts)
  end.

(** The parts as the specification words them: of the listed fields, in
    order, those whose value is present, each stringified and trimmed. *)
Definition present_parts (row : NormalizedRow) (compose_fields : list string)
  : list string :=
  map (fun v => strip (str_of v))
      (filter notna (map (row_get row) compose_fields)).

Definition lookup_name_by_year
  (format_id : Z) (var_code : string) (anogravable : Z)
  (compose_fields : list string) (sep : string) (current_year : option Z)
  : result (option Resolved) :=
  let current_year :=
    match current_year with
    | None => today_year
    | Some y => y
    end in
  parsed <- parse_var_code var_code ;;
  match parsed with
  | None => inr None
  | Some (prefix, var_number) =>
      d <- normalize_sheet current_year ;;
      let hit := loc (mask format_id var_number anogravable) d in
      match hit with
      | [] => inr None
      | row :: _ =>
          inr (Some {| name_var := row_get row "Descripción de la Casilla";
                       composed_name :=
                         compose sep (collect_parts row compose_fields);
                       meta := {| prefix := prefix;
                                  var_number := var_number |} |})
      end
  end.

End Lookup.

End Variables.


(** ** Sample data *)

Module Ejemplos.
Import Py Spark Rut.

Definition fila (nit fec : Z) (resp_52 : option bool) (tipo : string)
  : RegistryRow :=
  {| NUM_NIT := Some nit;
     FEC_CAMBIO := Some fec;
     IND_TIENE_RESP_47 := Some true;
     IND_TIENE_RESP_48 := Some false;
     IND_TIENE_RESP_33 := None;
     IND_TIENE_RESP_16 := Some false;
     IND_TIENE_RESP_52 := resp_52;
     NOM_TIPO_CONTRIBUYENTE := Some tipo;
     NUM_ESTABLECIMIENTOS := Some 1%Z |}.

(** Three snapshots of identifier 7 and one of identifier 5. *)
Definition int_personas : list RegistryRow :=
  [ fila 7 20200101 (Some true) "PERSONA NATURAL";
    fila 5 20190101 None "Persona juridica";
    fila 7 20230101 None "persona natural o sucesion iliquida";
    fila 7 20210101 (Some false) "Persona Natural" ].

(** A session over [int_personas] that answers the two queries the samples
    issue, converts a pandas frame as it is and rejects any other text. *)
Definition spark : SparkSession :=
  {| sql := fun q =>
       if String.eqb q (query_int_personas "7")
       then inr (filter (fun r => sql_eqb (NUM_NIT r) (Some 7%Z)) int_personas)
       else if String.eqb q (query_int_personas "5")
       then inr (filter (fun r => sql_eqb (NUM_NIT r) (Some 5%Z)) int_personas)
       else inl "ParseException";
     createDataFrame := fun pdf => inr pdf |}.

(** Identifier 7 on two of the caller's rows. *)
Definition dos_veces : DataFrame :=
  {| columns := ["numero_identificacion"; "valor"];
     rows := [[Some 7%Z; Some 100%Z]; [Some 7%Z; Some 200%Z]] |}.

(** The identifier is in [rut]; [numero_identificacion] holds something
    else. *)
Definition rut_y_numero : DataFrame :=
  {| columns := ["rut"; "numero_identificacion"];
     rows := [[Some 5%Z; Some 7%Z]] |}.

Definition solo_rut : DataFrame :=
  {| columns := ["rut"]; rows := [[Some 5%Z]] |}.

(** A pandas frame with a column called [select]. *)
Definition con_columna_select : DataFrame :=
  {| columns := ["numero_identificacion"; "select"];
     rows := [[Some 7%Z; Some 1%Z]] |}.

(** The metadata row of the specification's example, with two descriptive
    columns of which only the second is filled. *)
Definition casilla_33 : Variables.MetadataRow :=
  {| Variables.Codigo_del_Formato := Variables.PInt 210;
     Variables.Codigo_de_la_Variable := Variables.PInt 33;
     Variables.Ano_Gravable_Desde := Variables.PInt 2020;
     Variables.Ano_Gravable_Hasta := Variables.PStr "Vigente";
     Variables.otras :=
       [ ("Descripción de la Casilla", Variables.PStr "Renta líquida");
         ("Descripción de la Variable", Variables.PNa);
         ("Número Casilla", Variables.PStr " 33 ") ] |}.

(** A reading of text cells as integers: ASCII digits only. *)
Definition solo_digitos (s : string) : option Z :=
  match s with
  | EmptyString => None
  | String _ _ =>
      if Variables.all_digits s then Some (Variables.int_of_digits s) else None
  end.

End Ejemplos.

(** ** variables/post_proceso_consultas.py: the cell cleaner *)

Module Clean.
Import Py.

Definition upper (c : ascii) : ascii :=
  let n := nat_of_ascii c in
  if ((97 <=? n) && (n <=? 122))%nat then ascii_of_nat (n - 32) else c.

(** [s.upper()] on the ASCII range. *)
Definition str_upper : string -> string := map_string upper.

(** [re.fullmatch(r"\d+", s)] *)
Definition fullmatch_digits (s : string) : bool :=
  match s with
  | EmptyString => false
  | String _ _ => Variables.all_digits s
  end.

(** [s[0] == "0"], asked of a string that is not empty. *)
Definition first_is_zero (s : string) : bool :=
  match s with
  | EmptyString => false
  | String c _ => Ascii.eqb c "0"
  end.

Section CleanCell.

(** Floats, with [f.is_integer()] and [int(f)]. *)
Variable float : Type.
Variable is_integer : float -> bool.
Variable int_of_float : float -> Z.

Inductive number : Type :=
| NInt (z : Z)
| NFloat (f : float).

(** [pd.to_numeric(s, errors="raise")] on a text: the number read, or nothing
    when it raises. *)
Variable to_numeric_raise : string -> option number.

(** What [clean_cell] returns: an [int], a [float] or a [str]. *)
Inductive cleaned : Type :=
| CInt (z : Z)
| CFloat (f : float)
| CText (s : string).

(** Lines 12-32. *)
Definition clean_cell (s : string) (keep_leading_zero_ids : bool) : cleaned :=
  let s := strip s in
  if String.eqb (str_upper s) "0E-10" then CInt 0
  else if keep_leading_zero_ids && fullmatch_digits s
          && (1 <? String.length s)%nat && first_is_zero s
  then CText s
  else match to_numeric_raise s with
       | Some (NInt z) => CInt z
       | Some (NFloat f) =>
           if is_integer f then CInt (int_of_float f) else CFloat f
       | None => CText s
       end.

End CleanCell.

Arguments NInt {float} z.
Arguments NFloat {float} f.
Arguments CInt {float} z.
Arguments CFloat {float} f.
Arguments CText {float} s.
Arguments clean_cell {float} is_integer int_of_float to_numeric_raise
  s keep_leading_zero_ids.

End Clean.

(** ** Sample sheets *)

Module Hojas.
Import Variables.

(** Two validity windows of box 33 of format 210 that overlap in 2018 and
    2019; the second has no last year. *)
Definition cerrada : MetadataRow :=
  {| Codigo_del_Formato := PInt 210;
     Codigo_de_la_Variable := PInt 33;
     Ano_Gravable_Desde := PInt 2015;
     Ano_Gravable_Hasta := PInt 2019;
     otras := [ ("Descripción de la Casilla", PStr "Renta hasta 2019");
                ("Número Casilla", PInt 33) ] |}.

Definition abierta : MetadataRow :=
  {| Codigo_del_Formato := PInt 210;
     Codigo_de_la_Variable := PStr "33";
     Ano_Gravable_Desde := PInt 2018;
     Ano_Gravable_Hasta := PNa;
     otras := [ ("Descripción de la Casilla", PStr "Renta desde 2018");
                ("Número Casilla", PInt 33) ] |}.

Definition hoja : list MetadataRow := [cerrada; abierta].

(** Text cells read as integers when they are made of ASCII digits, and as
    no number otherwise. *)
Definition lee_digitos (s : string) : option (Z + pyfloat) :=
  option_map inl (Ejemplos.solo_digitos s).

(** The floats 33.0 and 2019.5. *)
Definition f_33_0 : pyfloat :=
  {| float_is_integer := true; float_int := 33; float_repr := "33.0" |}.

Definition f_2019_5 : pyfloat :=
  {| float_is_integer := false; float_int := 2019; float_repr := "2019.5" |}.

(** Box 33 as pandas holds it when another cell of the box-number column is
    empty: the column is of floats. *)
Definition casilla_float : MetadataRow :=
  {| Codigo_del_Formato := PInt 210;
     Codigo_de_la_Variable := PInt 33;
     Ano_Gravable_Desde := PInt 2020;
     Ano_Gravable_Hasta := PStr "Vigente";
     otras := [ ("Descripción de la Casilla", PStr "Renta líquida");
                ("Descripción de la Variable", PNa);
                ("Número Casilla", PFloat f_33_0) ] |}.

(** A row of another box whose last year is not a whole number. *)
Definition fraccion : MetadataRow :=
  {| Codigo_del_Formato := PInt 210;
     Codigo_de_la_Variable := PInt 34;
     Ano_Gravable_Desde := PInt 2015;
     Ano_Gravable_Hasta := PFloat f_2019_5;
     otras := [ ("Descripción de la Casilla", PStr "Otra renta") ] |}.

(** A row whose first year is a text that is no number. *)
Definition sin_desde : MetadataRow :=
  {| Codigo_del_Formato := PInt 210;
     Codigo_de_la_Variable := PInt 33;
     Ano_Gravable_Desde := PStr "s/d";
     Ano_Gravable_Hasta := PNa;
     otras := [ ("Descripción de la Casilla", PStr "Renta sin fecha") ] |}.

(** A code whose number has [n] digits. *)
Definition codigo_largo (n : nat) : string :=
  ("VAR_" ++ string_of_list_ascii (repeat "1"%char n))%string.

End Hojas.

(** * Properties *)

(** ** Windows, grouping and sorting *)

Module SparkFacts.
Import Spark.

Lemma key_eqb_eq (a b : option Z) : key_eqb a b = true <-> a = b.
Proof.
  destruct a as [x|], b as [y|]; simpl; split; intros H;
    try discriminate; try reflexivity.
  - apply Z.eqb_eq in H. now subst.
  - injection H as ->. apply Z.eqb_refl.
Qed.

Lemma key_eqb_refl (a : option Z) : key_eqb a a = true.
Proof. now apply key_eqb_eq. Qed.

Lemma key_eqb_neq (a b : option Z) : key_eqb a b = false <-> a <> b.
Proof.
  split.
  - intros H E. apply key_eqb_eq in E. congruence.
  - intros H. destruct (key_eqb a b) eqn:E; [|reflexivity].
    apply key_eqb_eq in E. contradiction.
Qed.

Lemma key_dec (a b : option Z) : {a = b} + {a <> b}.
Proof. decide equality. apply Z.eq_dec. Qed.

Lemma sql_eqb_Some (n : Z) (b : option Z) :
  sql_eqb (Some n) b = key_eqb (Some n) b.
Proof. now destruct b. Qed.

Lemma sql_eqb_true (a b : option Z) :
  sql_eqb a b = true <-> exists n, a = Some n /\ b = Some n.
Proof.
  destruct a as [x|], b as [y|]; simpl; split; intros H;
    try discriminate; try (destruct H as (n & H1 & H2); discriminate).
  - apply Z.eqb_eq in H. subst. now exists y.
  - destruct H as (n & H1 & H2). injection H1 as ->. injection H2 as ->.
    apply Z.eqb_refl.
Qed.

Lemma distinct_In (l : list (option Z)) (k : option Z) :
  In k (distinct l) <-> In k l.
Proof.
  induction l as [|a l IH]; simpl; [tauto|].
  rewrite filter_In, IH.
  destruct (key_eqb a k) eqn:E.
  - apply key_eqb_eq in E. subst. simpl. intuition congruence.
  - apply key_eqb_neq in E. simpl. intuition congruence.
Qed.

Lemma distinct_NoDup (l : list (option Z)) : NoDup (distinct l).
Proof.
  induction l as [|a l IH]; simpl; constructor.
  - intros H. apply filter_In in H. destruct H as [_ H].
    now rewrite key_eqb_refl in H.
  - now apply NoDup_filter.
Qed.

Lemma firstn_1_length {A : Type} (l : list A) : (List.length (firstn 1 l) <= 1)%nat.
Proof. destruct l; simpl; lia. Qed.

Lemma firstn_1_In {A : Type} (l : list A) (x : A) : In x (firstn 1 l) -> In x l.
Proof. destruct l; simpl; tauto. Qed.

Lemma firstn_1_idem {A : Type} (l : list A) : firstn 1 (firstn 1 l) = firstn 1 l.
Proof. now destruct l. Qed.

Lemma NoDup_map_eq {A B : Type} (f : A -> B) (l : list A) (x y : A) :
  NoDup (map f l) -> In x l -> In y l -> f x = f y -> x = y.
Proof.
  induction l as [|a l IH]; simpl; [tauto|].
  intros ND Hx Hy E. inversion ND as [|? ? Hn ND']; subst.
  destruct Hx as [->|Hx], Hy as [->|Hy]; auto.
  - exfalso. apply Hn. rewrite E. now apply in_map.
  - exfalso. apply Hn. rewrite <- E. now apply in_map.
Qed.

Section WindowFacts.
Context {A : Type}.
Variable before : A -> A -> bool.

Lemma insert_In (x y : A) (l : list A) :
  In y (insert before x l) <-> y = x \/ In y l.
Proof.
  induction l as [|a l IH]; simpl.
  - intuition.
  - destruct (before x a); simpl; rewrite ?IH; intuition.
Qed.

Lemma sort_In (y : A) (l : list A) : In y (sort before l) <-> In y l.
Proof.
  induction l as [|a l IH]; simpl; [tauto|].
  rewrite insert_In, IH. intuition.
Qed.

Lemma sort_length (l : list A) : List.length (sort before l) = List.length l.
Proof.
  induction l as [|a l IH]; simpl; [reflexivity|].
  rewrite <- IH. generalize (sort before l). intros s.
  induction s as [|b s IHs]; simpl; [reflexivity|].
  destruct (before a b); simpl; congruence.
Qed.

Lemma sort_short (l : list A) : (List.length l <= 1)%nat -> sort before l = l.
Proof. destruct l as [|a [|b l]]; simpl; intros H; try reflexivity; lia. Qed.

(** A frame already in window order is left as it is. *)
Lemma sort_sorted (l : list A) :
  StronglySorted (fun x y => before x y = true) l -> sort before l = l.
Proof.
  induction 1 as [|a l Hs IH Hall]; simpl; [reflexivity|].
  rewrite IH. destruct l as [|b l]; simpl; [reflexivity|].
  inversion Hall as [|? ? Hab _]; subst. now rewrite Hab.
Qed.

Hypothesis before_total : forall x y, before x y = true \/ before y x = true.
Hypothesis before_trans :
  forall x y z, before x y = true -> before y z = true -> before x z = true.

Lemma insert_sorted (x : A) (l : list A) :
  StronglySorted (fun x y => before x y = true) l ->
  StronglySorted (fun x y => before x y = true) (insert before x l).
Proof.
  induction 1 as [|a l Hs IH Hall]; simpl.
  - repeat constructor.
  - destruct (before x a) eqn:E.
    + constructor; [now constructor|].
      constructor; [assumption|].
      eapply Forall_impl; [|exact Hall]. intros; eauto.
    + constructor; [assumption|].
      apply Forall_forall. intros y Hy. apply insert_In in Hy.
      destruct Hy as [->|Hy].
      * destruct (before_total a x) as [H|H]; congruence.
      * rewrite Forall_forall in Hall. auto.
Qed.

Lemma sort_is_sorted (l : list A) :
  StronglySorted (fun x y => before x y = true) (sort before l).
Proof.
  induction l as [|a l IH]; simpl; [constructor|]. now apply insert_sorted.
Qed.

(** The row ranked first stands before every row of its partition. *)
Lemma sort_head (l : list A) (h : A) (t : list A) :
  sort before l = h :: t -> forall x, In x l -> before h x = true.
Proof.
  intros E x Hx. pose proof (sort_is_sorted l) as Hs. rewrite E in Hs.
  apply (sort_In x) in Hx. rewrite E in Hx. inversion Hs as [|? ? _ Hall]; subst.
  destruct Hx as [<-|Hx].
  - destruct (before_total h h); assumption.
  - rewrite Forall_forall in Hall. auto.
Qed.

End WindowFacts.

Section PartitionFacts.
Context {A : Type}.
Variable key : A -> option Z.

Lemma partition_of_In (k : option Z) (df : list A) (x : A) :
  In x (partition_of key k df) <-> In x df /\ key x = k.
Proof.
  unfold partition_of. rewrite filter_In, key_eqb_eq. intuition.
Qed.

Lemma partition_of_cons (k : option Z) (a : A) (l : list A) :
  partition_of key k (a :: l) =
  if key_eqb k (key a) then a :: partition_of key k l else partition_of key k l.
Proof. reflexivity. Qed.

Lemma partition_of_app (k : option Z) (l1 l2 : list A) :
  partition_of key k (l1 ++ l2) = partition_of key k l1 ++ partition_of key k l2.
Proof. apply filter_app. Qed.

Lemma partition_of_none (k : option Z) (df : list A) :
  (forall x, In x df -> key x <> k) -> partition_of key k df = [].
Proof.
  induction df as [|a df IH]; simpl; intros H; [reflexivity|].
  destruct (key_eqb k (key a)) eqn:E.
  - apply key_eqb_eq in E. exfalso. apply (H a); auto.
  - apply IH. intros x Hx. apply H. now right.
Qed.

Lemma partition_of_all (k : option Z) (df : list A) :
  (forall x, In x df -> key x = k) -> partition_of key k df = df.
Proof.
  induction df as [|a df IH]; simpl; intros H; [reflexivity|].
  rewrite (H a) by now left. rewrite key_eqb_refl. f_equal.
  apply IH. intros x Hx. apply H. now right.
Qed.

(** Ranks count up from the first one given. *)
Lemma enumerate_from_rank (n : nat) (l : list A) (x : A) (i : nat) :
  In (x, i) (enumerate_from n l) -> (n <= i)%nat.
Proof.
  unfold enumerate_from. intros H. apply in_combine_r in H.
  apply in_seq in H. lia.
Qed.

Lemma keep_first_ranked_enumerate (l : list A) :
  keep_first_ranked (enumerate_from 1 l) = firstn 1 l.
Proof.
  destruct l as [|a l]; [reflexivity|].
  unfold keep_first_ranked, enumerate_from. simpl. f_equal.
  change (combine l (seq 2 (List.length l))) with (enumerate_from 2 l).
  destruct (filter (fun rr : A * nat => (snd rr =? 1)%nat) (enumerate_from 2 l))
    as [|[x i] rest] eqn:E; [reflexivity|].
  assert (Hin : In (x, i) (filter (fun rr : A * nat => (snd rr =? 1)%nat)
                                  (enumerate_from 2 l)))
    by (rewrite E; now left).
  apply filter_In in Hin. destruct Hin as [Hin Hi].
  apply enumerate_from_rank in Hin. simpl in Hi. apply Nat.eqb_eq in Hi. lia.
Qed.

Lemma keep_first_ranked_app (l1 l2 : list (A * nat)) :
  keep_first_ranked (l1 ++ l2) = keep_first_ranked l1 ++ keep_first_ranked l2.
Proof. unfold keep_first_ranked. now rewrite filter_app, map_app. Qed.

(** At most one row per key means no key occurs twice. *)
Lemma NoDup_keys (l : list A) :
  (forall k, List.length (partition_of key k l) <= 1)%nat -> NoDup (map key l).
Proof.
  induction l as [|a l IH]; simpl; intros H; constructor.
  - intros Hin. apply in_map_iff in Hin. destruct Hin as (b & Hb & Hbl).
    specialize (H (key a)). simpl in H. rewrite key_eqb_refl in H. simpl in H.
    assert (Hp : In b (partition_of key (key a) l))
      by (apply partition_of_In; auto).
    destruct (partition_of key (key a) l); simpl in *; [tauto|lia].
  - apply IH. intros k. specialize (H k). simpl in H.
    destruct (key_eqb k (key a)); simpl in H; lia.
Qed.

Variable before : A -> A -> bool.

(** Keeping rank 1 of a window keeps the head of every sorted partition. *)
Lemma keep_first_ranked_row_number (df : list A) :
  keep_first_ranked (row_number_over key before df) =
  flat_map (fun k => firstn 1 (sort before (partition_of key k df)))
           (distinct (map key df)).
Proof.
  unfold row_number_over. generalize (distinct (map key df)). intros ks.
  induction ks as [|k ks IH]; simpl; [reflexivity|].
  now rewrite keep_first_ranked_app, keep_first_ranked_enumerate, IH.
Qed.

Lemma partition_of_flat_map_out (f : option Z -> list A) (k : option Z)
      (ks : list (option Z)) :
  (forall k' x, In x (f k') -> key x = k') ->
  ~ In k ks -> partition_of key k (flat_map f ks) = [].
Proof.
  intros Hf Hk. apply partition_of_none. intros x Hx E.
  apply in_flat_map in Hx. destruct Hx as (k' & Hk' & Hx).
  apply Hf in Hx. congruence.
Qed.

Lemma partition_of_flat_map_in (f : option Z -> list A) (k : option Z)
      (ks : list (option Z)) :
  (forall k' x, In x (f k') -> key x = k') ->
  NoDup ks -> In k ks -> partition_of key k (flat_map f ks) = f k.
Proof.
  intros Hf. induction ks as [|k0 ks IH]; simpl; [tauto|].
  intros ND Hin. inversion ND as [|? ? Hn ND']; subst.
  rewrite partition_of_app. destruct Hin as [->|Hin].
  - rewrite (partition_of_flat_map_out f k ks Hf Hn), app_nil_r.
    apply partition_of_all. intros x. apply Hf.
  - rewrite (IH ND' Hin).
    rewrite partition_of_none; [reflexivity|].
    intros x Hx E. apply Hf in Hx. congruence.
Qed.

(** After [row_number() == 1] every partition is reduced to the row that
    the window's order puts first. *)
Lemma partition_of_keep_first_ranked (k : option Z) (df : list A) :
  partition_of key k (keep_first_ranked (row_number_over key before df)) =
  firstn 1 (sort before (partition_of key k df)).
Proof.
  rewrite keep_first_ranked_row_number.
  set (f := fun k => firstn 1 (sort before (partition_of key k df))).
  assert (Hf : forall k' x, In x (f k') -> key x = k').
  { intros k' x Hx. unfold f in Hx.
    assert (Hs : In x (sort before (partition_of key k' df))).
    { now apply firstn_1_In. }
    apply sort_In in Hs. apply partition_of_In in Hs. tauto. }
  destruct (in_dec key_dec k (distinct (map key df)))
    as [Hin|Hout].
  - apply partition_of_flat_map_in; auto using distinct_NoDup.
  - rewrite (partition_of_flat_map_out f k _ Hf Hout).
    rewrite partition_of_none; [reflexivity|].
    intros x Hx E. apply Hout. apply distinct_In. subst. now apply in_map.
Qed.

End PartitionFacts.

End SparkFacts.

(** ** Registry enrichment *)

Module RutFacts.
Import Py Spark SparkFacts Rut.

Lemma existsb_sql_eqb (n : Z) (keys : list (option Z)) :
  existsb (sql_eqb (Some n)) keys = true <-> In (Some n) keys.
Proof.
  rewrite existsb_exists. split.
  - intros (k & Hk & E). rewrite sql_eqb_Some in E.
    apply key_eqb_eq in E. now subst.
  - intros H. exists (Some n). split; [assumption|].
    rewrite sql_eqb_Some. apply key_eqb_refl.
Qed.

Lemma filter_sql_eqb_out (n : Z) (keys : list (option Z)) :
  ~ In (Some n) keys -> filter (sql_eqb (Some n)) keys = [].
Proof.
  induction keys as [|k keys IH]; cbn [filter]; intros H; [reflexivity|].
  rewrite sql_eqb_Some. destruct (key_eqb (Some n) k) eqn:E.
  - apply key_eqb_eq in E. exfalso. apply H. now left.
  - apply IH. intros Hin. apply H. now right.
Qed.

Lemma filter_sql_eqb_in (n : Z) (keys : list (option Z)) :
  NoDup keys -> In (Some n) keys -> filter (sql_eqb (Some n)) keys = [Some n].
Proof.
  induction keys as [|k keys IH]; cbn [filter In]; [tauto|].
  intros ND Hin. inversion ND as [|? ? Hn ND']; subst.
  rewrite sql_eqb_Some. destruct (key_eqb (Some n) k) eqn:E.
  - apply key_eqb_eq in E. subst k. f_equal. now apply filter_sql_eqb_out.
  - apply key_eqb_neq in E. destruct Hin as [Hin|Hin]; [congruence|]. auto.
Qed.

(** The keys counted more than once, read off the frame directly. *)
Lemma duplicated_nits_df_filter (df : list RegistryRow) :
  duplicated_nits_df df =
  filter (fun k => (1 <? List.length (partition_of NUM_NIT k df))%nat)
         (distinct (map NUM_NIT df)).
Proof.
  unfold duplicated_nits_df, groupBy_count.
  generalize (distinct (map NUM_NIT df)). intros ks.
  induction ks as [|k ks IH]; simpl; [reflexivity|].
  destruct (1 <? List.length (partition_of NUM_NIT k df))%nat; simpl; congruence.
Qed.

Lemma duplicated_nits_df_NoDup (df : list RegistryRow) :
  NoDup (duplicated_nits_df df).
Proof.
  rewrite duplicated_nits_df_filter. apply NoDup_filter, distinct_NoDup.
Qed.

Lemma duplicated_nits_df_In (df : list RegistryRow) (k : option Z) :
  In k (duplicated_nits_df df) <->
  (1 < List.length (partition_of NUM_NIT k df))%nat.
Proof.
  rewrite duplicated_nits_df_filter, filter_In, distinct_In, Nat.ltb_lt.
  split; [tauto|]. intros H. split; [|assumption].
  destruct (partition_of NUM_NIT k df) as [|r p] eqn:E; simpl in H; [lia|].
  assert (Hr : In r (partition_of NUM_NIT k df)) by (rewrite E; now left).
  apply partition_of_In in Hr. destruct Hr as [Hr <-]. now apply in_map.
Qed.

Lemma partition_of_join_left_anti (n : Z) (df : list RegistryRow)
      (keys : list (option Z)) :
  partition_of NUM_NIT (Some n) (join_left_anti df keys) =
  if existsb (sql_eqb (Some n)) keys then []
  else partition_of NUM_NIT (Some n) df.
Proof.
  unfold join_left_anti, partition_of.
  induction df as [|r df IH]; cbn [filter]; [now destruct (existsb _ keys)|].
  destruct (key_eqb (Some n) (NUM_NIT r)) eqn:E.
  - apply key_eqb_eq in E. rewrite <- E.
    destruct (existsb (sql_eqb (Some n)) keys) eqn:X; cbn [negb filter].
    + exact IH.
    + rewrite E at 1. rewrite key_eqb_refl. now f_equal.
  - destruct (negb (existsb (sql_eqb (NUM_NIT r)) keys)); cbn [filter];
      [rewrite E|]; exact IH.
Qed.

Lemma partition_of_join_inner (n : Z) (df : list RegistryRow)
      (keys : list (option Z)) :
  NoDup keys ->
  partition_of NUM_NIT (Some n) (join_inner df keys) =
  if existsb (sql_eqb (Some n)) keys then partition_of NUM_NIT (Some n) df
  else [].
Proof.
  intros ND. unfold join_inner.
  induction df as [|r df IH]; cbn [flat_map];
    [now destruct (existsb _ keys)|].
  rewrite partition_of_app, IH, partition_of_cons. clear IH.
  destruct (key_eqb (Some n) (NUM_NIT r)) eqn:E.
  - apply key_eqb_eq in E. rewrite <- E.
    destruct (existsb (sql_eqb (Some n)) keys) eqn:X.
    + apply existsb_sql_eqb in X. rewrite (filter_sql_eqb_in n keys ND X).
      cbn [map]. rewrite partition_of_cons, <- E, key_eqb_refl. reflexivity.
    + rewrite filter_sql_eqb_out; [reflexivity|].
      intros Hin. apply existsb_sql_eqb in Hin. congruence.
  - rewrite partition_of_none.
    + now destruct (existsb (sql_eqb (Some n)) keys).
    + intros x Hx Ex. apply in_map_iff in Hx. destruct Hx as (k & <- & _).
      apply key_eqb_neq in E. congruence.
Qed.

(** *** The second pass keeps the first row of every key *)

Lemma with_increasing_id_sorted {A : Type} (l : list A) (n : nat) :
  StronglySorted (fun x y : A * nat => (snd x <=? snd y)%nat = true)
                 (combine l (seq n (List.length l))).
Proof.
  revert n. induction l as [|a l IH]; intros n; simpl; constructor.
  - apply IH.
  - apply Forall_forall. intros [y i] Hy. apply in_combine_r in Hy.
    apply in_seq in Hy. simpl. apply Nat.leb_le. lia.
Qed.

Lemma StronglySorted_filter {A : Type} (R : A -> A -> Prop) (p : A -> bool)
      (l : list A) :
  StronglySorted R l -> StronglySorted R (filter p l).
Proof.
  induction 1 as [|a l Hs IH Hall]; simpl; [constructor|].
  destruct (p a); [|assumption]. constructor; [assumption|].
  apply Forall_forall. intros y Hy. apply filter_In in Hy.
  rewrite Forall_forall in Hall. now apply Hall.
Qed.

Lemma map_fst_partition_of_combine (k : option Z) (l : list RegistryRow)
      (n : nat) :
  map fst (partition_of (fun ri : RegistryRow * nat => NUM_NIT (fst ri)) k
                        (combine l (seq n (List.length l)))) =
  partition_of NUM_NIT k l.
Proof.
  revert n. induction l as [|a l IH]; intros n; simpl; [reflexivity|].
  destruct (key_eqb k (NUM_NIT a)); simpl; now rewrite IH.
Qed.

Lemma partition_of_map_fst (k : option Z) (l : list (RegistryRow * nat)) :
  partition_of NUM_NIT k (map fst l) =
  map fst (partition_of (fun ri : RegistryRow * nat => NUM_NIT (fst ri)) k l).
Proof.
  induction l as [|a l IH]; simpl; [reflexivity|].
  destruct (key_eqb k (NUM_NIT (fst a))); simpl; now rewrite IH.
Qed.

Lemma partition_of_drop_duplicates_first (k : option Z) (df : list RegistryRow) :
  partition_of NUM_NIT k (drop_duplicates_first df) =
  firstn 1 (partition_of NUM_NIT k df).
Proof.
  unfold drop_duplicates_first.
  rewrite partition_of_map_fst, partition_of_keep_first_ranked.
  rewrite sort_sorted.
  - unfold with_increasing_id.
    now rewrite <- firstn_map, map_fst_partition_of_combine.
  - apply StronglySorted_filter. apply with_increasing_id_sorted.
Qed.

(** *** The order on effective dates *)

Lemma fec_leb_total (a b : option Z) : fec_leb a b = true \/ fec_leb b a = true.
Proof. destruct a, b; simpl; auto. lia. Qed.

Lemma fec_leb_trans (a b c : option Z) :
  fec_leb a b = true -> fec_leb b c = true -> fec_leb a c = true.
Proof. destruct a, b, c; simpl; auto; try discriminate. lia. Qed.

Lemma fec_leb_antisym (a b : option Z) :
  fec_leb a b = true -> fec_leb b a = true -> a = b.
Proof.
  destruct a, b; simpl; intros H1 H2; try discriminate; try reflexivity.
  f_equal. lia.
Qed.

Lemma fec_cambio_desc_total (x y : RegistryRow) :
  fec_cambio_desc x y = true \/ fec_cambio_desc y x = true.
Proof. unfold fec_cambio_desc. apply fec_leb_total. Qed.

Lemma fec_cambio_desc_trans (x y z : RegistryRow) :
  fec_cambio_desc x y = true -> fec_cambio_desc y z = true ->
  fec_cambio_desc x z = true.
Proof. unfold fec_cambio_desc. eauto using fec_leb_trans. Qed.

(** *** What resolution leaves of every identifier *)

(** The rows of identifier [n] after resolution: the first of its fetched
    rows in descending order of [FEC_CAMBIO], if it has any. *)
Lemma clean_partition (n : Z) (df : list RegistryRow) :
  partition_of NUM_NIT (Some n) (df_infor_rut_int_personas_clean df) =
  firstn 1 (sort fec_cambio_desc (partition_of NUM_NIT (Some n) df)).
Proof.
  unfold df_infor_rut_int_personas_clean.
  rewrite partition_of_drop_duplicates_first, partition_of_app.
  unfold df_non_dupes, df_dupes_cleaned, df_dupes_ranked, df_dupes.
  rewrite partition_of_join_left_anti, partition_of_keep_first_ranked.
  rewrite partition_of_join_inner by apply duplicated_nits_df_NoDup.
  destruct (existsb (sql_eqb (Some n)) (duplicated_nits_df df)) eqn:X.
  - simpl app. apply firstn_1_idem.
  - assert (Hlen : (List.length (partition_of NUM_NIT (Some n) df) <= 1)%nat).
    { destruct (Nat.le_gt_cases (List.length (partition_of NUM_NIT (Some n) df)) 1)
        as [H|H]; [assumption|].
      apply duplicated_nits_df_In, existsb_sql_eqb in H. congruence. }
    simpl sort. simpl firstn at 2. rewrite app_nil_r.
    now rewrite sort_short.
Qed.

Lemma clean_at_most_one (k : option Z) (df : list RegistryRow) :
  (List.length (partition_of NUM_NIT k (df_infor_rut_int_personas_clean df)) <= 1)%nat.
Proof.
  unfold df_infor_rut_int_personas_clean.
  rewrite partition_of_drop_duplicates_first. apply firstn_1_length.
Qed.

Lemma clean_NoDup (df : list RegistryRow) :
  NoDup (map NUM_NIT (df_infor_rut_int_personas_clean df)).
Proof. apply NoDup_keys. intros k. apply clean_at_most_one. Qed.

(** *** The join *)

Lemma filter_nothing {A : Type} (p : A -> bool) (l : list A) :
  (forall x, In x l -> p x = false) -> filter p l = [].
Proof.
  induction l as [|a l IH]; simpl; intros H; [reflexivity|].
  rewrite (H a) by now left. apply IH. intros x Hx. apply H. now right.
Qed.

Lemma filter_length_le {A : Type} (p : A -> bool) (l : list A) :
  (List.length (filter p l) <= List.length l)%nat.
Proof.
  induction l as [|a l IH]; simpl; [lia|]. destruct (p a); simpl; lia.
Qed.

(** Every row of the joined frame pairs a row of the caller with a resolved
    registry row of the same identifier. *)
Lemma df_joined_final_In (input : DataFrame) (clean : list RegistryRow)
      (j : JoinedRow) :
  In j (df_joined_final input clean) <->
  exists row r,
    In row (rows input) /\ In r clean /\
    sql_eqb (field input "numero_identificacion" row) (NUM_NIT r) = true /\
    j = {| entrada := row;
           registro := with_NOM_TIPO_CONTRIBUYENTE
                         (normalizar_tipo (NOM_TIPO_CONTRIBUYENTE r)) r;
           marca_resp_52 := marca_resp_52_of r |}.
Proof.
  unfold df_joined_final. rewrite in_flat_map. split.
  - intros (row & Hrow & Hj). apply in_map_iff in Hj.
    destruct Hj as (r & <- & Hr). apply filter_In in Hr.
    exists row, r. tauto.
  - intros (row & r & Hrow & Hr & E & ->). exists row. split; [assumption|].
    apply in_map_iff. exists r. split; [reflexivity|].
    apply filter_In. tauto.
Qed.

Lemma df_joined_final_count (n : Z) (input : DataFrame)
      (clean : list RegistryRow) :
  (forall k, List.length (partition_of NUM_NIT k clean) <= 1)%nat ->
  (List.length (rows_of_identifier n (df_joined_final input clean))
   <= List.length (input_rows_of_identifier n input))%nat.
Proof.
  intros Hone. unfold rows_of_identifier, input_rows_of_identifier, df_joined_final.
  generalize (rows input). intros l.
  induction l as [|row l IH]; cbn [flat_map filter]; [simpl; lia|].
  rewrite filter_app, length_app.
  set (matches := filter (fun r => sql_eqb (field input "numero_identificacion" row)
                                           (NUM_NIT r)) clean).
  destruct (sql_eqb (Some n) (field input "numero_identificacion" row)) eqn:E.
  - rewrite sql_eqb_Some in E. apply key_eqb_eq in E.
    assert (Hm : (List.length matches <= 1)%nat).
    { unfold matches. rewrite <- E.
      erewrite filter_ext; [apply (Hone (Some n))|].
      intros r. simpl. apply sql_eqb_Some. }
    pose proof (filter_length_le
                  (fun j => sql_eqb (Some n) (NUM_NIT (registro j)))
                  (map (fun r => {| entrada := row;
                                    registro := with_NOM_TIPO_CONTRIBUYENTE
                                      (normalizar_tipo (NOM_TIPO_CONTRIBUYENTE r)) r;
                                    marca_resp_52 := marca_resp_52_of r |})
                       matches)) as Hle.
    rewrite length_map in Hle. cbn [List.length].
    exact (Nat.add_le_mono _ 1 _ _ (Nat.le_trans _ _ _ Hle Hm) IH).
  - rewrite filter_nothing; [exact IH|].
    intros j Hj. apply in_map_iff in Hj. destruct Hj as (r & <- & Hr).
    apply filter_In in Hr. destruct Hr as [_ Hr]. cbn [registro NUM_NIT with_NOM_TIPO_CONTRIBUYENTE].
    apply sql_eqb_true in Hr. destruct Hr as (m & Hf & Hm).
    rewrite Hm. rewrite Hf in E. exact E.
Qed.

(** A call that returns went through every step of the function. *)
Lemma extraer_responsabilidades_rut_inr
      (o : py_object) (nombre_campo_rut : string) (spark : SparkSession)
      (dbutils : unit) (out : list JoinedRow) :
  extraer_responsabilidades_rut o nombre_campo_rut spark dbutils = inr out ->
  exists input ids fetched,
    (o' <- convertir_entrada o spark ;; printSchema o') = inr input /\
    select input "numero_identificacion" = inr ids /\
    sql spark (query_int_personas
                 (String.concat ", " (map str_of_cell (distinct ids))))
    = inr fetched /\
    out = df_joined_final input (df_infor_rut_int_personas_clean fetched).
Proof.
  unfold extraer_responsabilidades_rut, bind.
  destruct (convertir_entrada o spark) as [e|o']; [discriminate|].
  destruct (printSchema o') as [e|input]; [discriminate|].
  destruct (select input "numero_identificacion") as [e|ids] eqn:Es;
    [discriminate|].
  destruct (sql spark _) as [msg|fetched] eqn:Eq; simpl; [discriminate|].
  intros H. injection H as <-. exists input, ids, fetched. auto.
Qed.

(** On a Spark frame only the collaborator can fail. *)
Lemma extraer_responsabilidades_rut_spark_error
      (df : DataFrame) (f : string) (spark : SparkSession) (d : unit) (e : exc) :
  extraer_responsabilidades_rut (SparkDataFrame df) f spark d = inl e ->
  exists msg, e = SparkError msg.
Proof.
  unfold extraer_responsabilidades_rut, bind, convertir_entrada. cbn [hasattr_select negb printSchema].
  unfold select. destruct (column_index "numero_identificacion" (columns df)).
  - destruct (sql spark _) as [msg|fetched]; simpl; [|discriminate].
    intros H. injection H as <-. now exists msg.
  - intros H. injection H as <-. eauto.
Qed.

(** *** Matching without case *)

Lemma prefix_ci_spec (pat s : string) :
  prefix_ci pat s = true <->
  exists mid post, s = (mid ++ post)%string /\ casefold mid = casefold pat.
Proof.
  revert s. induction pat as [|p pat IH]; intros s.
  - split; [|now destruct s]. intros _. exists "", s. auto.
  - destruct s as [|c s]; cbn [prefix_ci].
    + split; [discriminate|]. intros (mid & post & E & Hc).
      destruct mid; discriminate.
    + rewrite andb_true_iff, Ascii.eqb_eq, IH. split.
      * intros (Hp & mid & post & -> & Hc). exists (String c mid), post.
        split; [reflexivity|]. unfold casefold in *. cbn [map_string].
        now rewrite Hc, Hp.
      * intros (mid & post & E & Hc). destruct mid as [|m mid]; [discriminate|].
        cbn [append] in E. injection E as -> ->.
        unfold casefold in Hc. cbn [map_string] in Hc. injection Hc as Hm Hc.
        split; [now symmetry|]. exists mid, post. auto.
Qed.

(** [find_ci pat s]: [pat] occurs somewhere in [s], letters compared
    without case. *)
Lemma find_ci_spec (pat s : string) :
  find_ci pat s = true <->
  exists pre mid post,
    s = (pre ++ mid ++ post)%string /\ casefold mid = casefold pat.
Proof.
  split.
  - induction s as [|c s IH]; cbn [find_ci]; rewrite orb_true_iff.
    + intros [H|H]; [|discriminate]. apply prefix_ci_spec in H.
      destruct H as (mid & post & E & Hc). exists "", mid, post. auto.
    + intros [H|H].
      * apply prefix_ci_spec in H. destruct H as (mid & post & E & Hc).
        exists "", mid, post. auto.
      * destruct (IH H) as (pre & mid & post & -> & Hc).
        exists (String c pre), mid, post. auto.
  - intros (pre & mid & post & -> & Hc).
    assert (Hp : prefix_ci pat (mid ++ post) = true)
      by (apply prefix_ci_spec; eauto).
    induction pre as [|c pre IH]; cbn [append].
    + destruct (mid ++ post)%string; cbn [find_ci]; now rewrite Hp.
    + cbn [find_ci]. rewrite IH. apply orb_true_r.
Qed.

Lemma normalizar_tipo_Some (s : string) :
  normalizar_tipo (Some s) =
  if find_ci "persona nat" s then Some "Persona Natural"
  else if find_ci "persona jur" s then Some "Persona Jurídica"
  else Some s.
Proof.
  unfold normalizar_tipo. cbn [rlike_ci option_map].
  destruct (find_ci "persona nat" s); cbn [when_otherwise]; [reflexivity|].
  now destruct (find_ci "persona jur" s).
Qed.

(** *** The claims *)

(** C1 (as amended).  Whenever the call returns, at most one registry row
    per [NUM_NIT] has survived resolution, so that every row of the caller is
    joined with at most one registry row: for every identifier the returned
    frame has at most as many rows as the caller's frame has rows with that
    identifier. *)
Theorem joined_rows_per_identifier
        (o : py_object) (nombre_campo_rut : string) (spark : SparkSession)
        (dbutils : unit) (out : list JoinedRow) :
  extraer_responsabilidades_rut o nombre_campo_rut spark dbutils = inr out ->
  exists input fetched,
    (o' <- convertir_entrada o spark ;; printSchema o') = inr input /\
    out = df_joined_final input (df_infor_rut_int_personas_clean fetched) /\
    NoDup (map NUM_NIT (df_infor_rut_int_personas_clean fetched)) /\
    forall n : Z,
      (List.length (rows_of_identifier n out)
       <= List.length (input_rows_of_identifier n input))%nat.
Proof.
  intros H. apply extraer_responsabilidades_rut_inr in H.
  destruct H as (input & ids & fetched & Hin & _ & _ & ->).
  exists input, fetched. repeat split; auto using clean_NoDup.
  intros n. apply df_joined_final_count. intros k. apply clean_at_most_one.
Qed.

Lemma joined_rows_per_identifier_witness :
  exists input fetched,
    (o' <- convertir_entrada (SparkDataFrame Ejemplos.dos_veces) Ejemplos.spark ;;
     printSchema o') = inr input /\
    [ {| entrada := [Some 7%Z; Some 100%Z];
         registro := Ejemplos.fila 7 20230101 None "Persona Natural";
         marca_resp_52 := "No" |};
      {| entrada := [Some 7%Z; Some 200%Z];
         registro := Ejemplos.fila 7 20230101 None "Persona Natural";
         marca_resp_52 := "No" |} ]
    = df_joined_final input (df_infor_rut_int_personas_clean fetched) /\
    NoDup (map NUM_NIT (df_infor_rut_int_personas_clean fetched)) /\
    forall n : Z,
      (List.length
         (rows_of_identifier n
            [ {| entrada := [Some 7%Z; Some 100%Z];
                 registro := Ejemplos.fila 7 20230101 None "Persona Natural";
                 marca_resp_52 := "No" |};
              {| entrada := [Some 7%Z; Some 200%Z];
                 registro := Ejemplos.fila 7 20230101 None "Persona Natural";
                 marca_resp_52 := "No" |} ])
       <= List.length (input_rows_of_identifier n input))%nat.
Proof.
  apply (joined_rows_per_identifier (SparkDataFrame Ejemplos.dos_veces)
           "numero_identificacion" Ejemplos.spark tt).
  vm_compute. reflexivity.
Defined.

(** C1, the claim as stated, fails: identifier 7 stands on two rows of the
    caller's frame and on two rows of the returned frame. *)
Lemma joined_rows_not_unique_per_identifier :
  exists out,
    extraer_responsabilidades_rut (SparkDataFrame Ejemplos.dos_veces)
      "numero_identificacion" Ejemplos.spark tt = inr out /\
    ~ (forall n : Z, (List.length (rows_of_identifier n out) <= 1)%nat).
Proof.
  eexists. split; [vm_compute; reflexivity|].
  intros H. specialize (H 7%Z). vm_compute in H. lia.
Qed.

(** C2.  When an identifier has several fetched rows with pairwise distinct
    [FEC_CAMBIO], exactly one of them survives resolution, and its date is
    strictly later than the date of every other fetched row of that
    identifier (a NULL date counting as the earliest). *)
Theorem recency_tie_break (df : list RegistryRow) (n : Z) :
  (1 < List.length (partition_of NUM_NIT (Some n) df))%nat ->
  NoDup (map FEC_CAMBIO (partition_of NUM_NIT (Some n) df)) ->
  exists r,
    partition_of NUM_NIT (Some n) (df_infor_rut_int_personas_clean df) = [r] /\
    In r df /\ NUM_NIT r = Some n /\
    forall r', In r' df -> NUM_NIT r' = Some n -> r' <> r ->
               fec_ltb (FEC_CAMBIO r') (FEC_CAMBIO r) = true.
Proof.
  intros Hlen Hdates. rewrite clean_partition.
  destruct (sort fec_cambio_desc (partition_of NUM_NIT (Some n) df))
    as [|h t] eqn:Es.
  - apply (f_equal (@List.length _)) in Es. rewrite sort_length in Es.
    simpl in Es. lia.
  - assert (Hh : In h (partition_of NUM_NIT (Some n) df)).
    { apply (sort_In fec_cambio_desc). rewrite Es. now left. }
    exists h. split; [reflexivity|].
    pose proof Hh as Hh'. apply partition_of_In in Hh'. destruct Hh' as [Hdf Hk].
    repeat split; try assumption.
    intros r' Hr' Hk' Hne.
    assert (Hp : In r' (partition_of NUM_NIT (Some n) df))
      by (apply partition_of_In; auto).
    pose proof (sort_head fec_cambio_desc fec_cambio_desc_total
                          fec_cambio_desc_trans _ _ _ Es r' Hp) as Hle.
    unfold fec_cambio_desc in Hle. unfold fec_ltb.
    destruct (fec_leb (FEC_CAMBIO h) (FEC_CAMBIO r')) eqn:E; [|reflexivity].
    exfalso. apply Hne.
    apply (NoDup_map_eq FEC_CAMBIO _ r' h Hdates Hp Hh).
    now apply fec_leb_antisym.
Qed.

Lemma recency_tie_break_witness :
  exists r,
    partition_of NUM_NIT (Some 7%Z)
      (df_infor_rut_int_personas_clean Ejemplos.int_personas) = [r] /\
    In r Ejemplos.int_personas /\ NUM_NIT r = Some 7%Z /\
    forall r', In r' Ejemplos.int_personas -> NUM_NIT r' = Some 7%Z -> r' <> r ->
               fec_ltb (FEC_CAMBIO r') (FEC_CAMBIO r) = true.
Proof.
  apply (recency_tie_break Ejemplos.int_personas 7).
  - vm_compute. lia.
  - vm_compute. repeat constructor; simpl; intuition discriminate.
Defined.

(** C3.  The column named by [nombre_campo_rut] plays no part: the result is
    the same for every name passed.  With the identifier 5 in column [rut]
    and [nombre_campo_rut = "rut"], the function still reads
    [numero_identificacion]: it joins the row with the registry row of 7
    when that column exists, and fails to resolve it when it does not. *)
Theorem nombre_campo_rut_is_ignored :
  (forall (o : py_object) (f g : string) (spark : SparkSession) (d : unit),
      extraer_responsabilidades_rut o f spark d =
      extraer_responsabilidades_rut o g spark d) /\
  extraer_responsabilidades_rut (SparkDataFrame Ejemplos.rut_y_numero) "rut"
    Ejemplos.spark tt
  = inr [ {| entrada := [Some 5%Z; Some 7%Z];
             registro := Ejemplos.fila 7 20230101 None "Persona Natural";
             marca_resp_52 := "No" |} ] /\
  extraer_responsabilidades_rut (SparkDataFrame Ejemplos.solo_rut) "rut"
    Ejemplos.spark tt
  = inl (SparkError "cannot resolve column numero_identificacion").
Proof.
  split; [reflexivity|]. split; vm_compute; reflexivity.
Qed.

(** C8 (as amended).  The call raises its input-shape [TypeError] exactly
    when the input has no attribute [select] and is not a pandas frame.  A
    pandas frame without a column called [select] is converted by
    [spark.createDataFrame] and processed as the frame that returns; one
    with such a column passes for a Spark frame and fails at
    [printSchema]. *)
Theorem input_shape_type_error
        (o : py_object) (nombre_campo_rut : string) (spark : SparkSession)
        (dbutils : unit) :
  (extraer_responsabilidades_rut o nombre_campo_rut spark dbutils
   = inl (TypeError msg_input_shape)
   <-> hasattr_select o = false /\ isinstance_pandas o = false) /\
  (forall pdf : DataFrame,
      extraer_responsabilidades_rut (PandasDataFrame pdf) nombre_campo_rut
        spark dbutils =
      if hasattr_select (PandasDataFrame pdf)
      then inl (if mem "printSchema" (columns pdf)
                then TypeError "'Series' object is not callable"
                else AttributeError "printSchema")
      else (df <- from_spark (createDataFrame spark pdf) ;;
            extraer_responsabilidades_rut (SparkDataFrame df) nombre_campo_rut
              spark dbutils)).
Proof.
  split.
  - destruct o as [df|pdf|attrs].
    + split.
      * intros H. apply extraer_responsabilidades_rut_spark_error in H.
        destruct H as (msg & H). discriminate.
      * intros [H _]. discriminate.
    + split; [|intros [_ H]; discriminate].
      unfold extraer_responsabilidades_rut, convertir_entrada, bind.
      cbn [hasattr_select].
      destruct (mem "select" (columns pdf)); cbn [negb printSchema].
      * destruct (mem "printSchema" (columns pdf)); discriminate.
      * destruct (createDataFrame spark pdf) as [msg|df]; cbn [from_spark];
          [discriminate|].
        intros H.
        apply (extraer_responsabilidades_rut_spark_error df nombre_campo_rut
                 spark dbutils) in H.
        destruct H as (msg & H). discriminate.
    + unfold extraer_responsabilidades_rut, convertir_entrada, bind.
      cbn [hasattr_select isinstance_pandas].
      destruct (mem "select" attrs); cbn [negb printSchema].
      * destruct (mem "printSchema" attrs);
          (split; [discriminate|intros [H _]; discriminate]).
      * split; auto.
  - intros pdf. unfold extraer_responsabilidades_rut, convertir_entrada, bind.
    cbn [hasattr_select].
    destruct (mem "select" (columns pdf)); cbn [negb printSchema].
    + now destruct (mem "printSchema" (columns pdf)).
    + now destruct (createDataFrame spark pdf).
Qed.

(** C8, the claim as stated, fails in both of its parts: an object that is
    neither kind of frame but has an attribute [select] gets no [TypeError],
    and a pandas frame with a column called [select] is not converted but
    rejected with an [AttributeError]. *)
Lemma duck_typed_input_no_type_error :
  ~ ((exists msg,
         extraer_responsabilidades_rut (OtherObject ["select"])
           "numero_identificacion" Ejemplos.spark tt = inl (TypeError msg))
     <-> isinstance_spark (OtherObject ["select"]) = false /\
         isinstance_pandas (OtherObject ["select"]) = false) /\
  extraer_responsabilidades_rut (PandasDataFrame Ejemplos.con_columna_select)
    "numero_identificacion" Ejemplos.spark tt
  = inl (AttributeError "printSchema").
Proof.
  split; [|vm_compute; reflexivity].
  intros [_ H]. destruct H as (msg & H); [split; reflexivity|].
  vm_compute in H. discriminate.
Qed.

(** C9.  Normalizing the taxpayer type twice gives what normalizing it once
    gives, for every value of the column, NULL included; where normalizing
    gives ["Persona Natural"] for a text in which "persona nat" occurs in any
    case, ["Persona Jurídica"] for any other text in which "persona jur"
    occurs in any case, and the value itself otherwise. *)
Theorem normalizar_tipo_idempotent (c : option string) :
  normalizar_tipo (normalizar_tipo c) = normalizar_tipo c /\
  normalizar_tipo None = None /\
  (forall s : string,
      let occurs pat :=
        exists pre mid post,
          s = (pre ++ mid ++ post)%string /\ casefold mid = casefold pat in
      (occurs "persona nat" ->
       normalizar_tipo (Some s) = Some "Persona Natural") /\
      (~ occurs "persona nat" -> occurs "persona jur" ->
       normalizar_tipo (Some s) = Some "Persona Jurídica") /\
      (~ occurs "persona nat" -> ~ occurs "persona jur" ->
       normalizar_tipo (Some s) = Some s)).
Proof.
  split; [|split; [reflexivity|]].
  - destruct c as [s|]; [|reflexivity].
    rewrite (normalizar_tipo_Some s).
    destruct (find_ci "persona nat" s) eqn:Enat.
    + vm_compute. reflexivity.
    + destruct (find_ci "persona jur" s) eqn:Ejur.
      * vm_compute. reflexivity.
      * rewrite (normalizar_tipo_Some s), Enat, Ejur. reflexivity.
  - intros s occurs. rewrite (normalizar_tipo_Some s).
    assert (Hnat : find_ci "persona nat" s = true <-> occurs "persona nat")
      by apply find_ci_spec.
    assert (Hjur : find_ci "persona jur" s = true <-> occurs "persona jur")
      by apply find_ci_spec.
    destruct (find_ci "persona nat" s), (find_ci "persona jur" s);
      repeat split; intros; try reflexivity;
      try (exfalso; intuition congruence).
Qed.

(** C10.  On every row of the returned frame [marca_resp_52] is ["SÍ"]
    exactly when [IND_TIENE_RESP_52] is true, and ["No"] for every other
    value of the flag; in particular a NULL flag gives ["No"]. *)
Theorem marca_resp_52_null_is_No
        (o : py_object) (nombre_campo_rut : string) (spark : SparkSession)
        (dbutils : unit) (out : list JoinedRow) (j : JoinedRow) :
  extraer_responsabilidades_rut o nombre_campo_rut spark dbutils = inr out ->
  In j out ->
  (IND_TIENE_RESP_52 (registro j) = None -> marca_resp_52 j = "No") /\
  (marca_resp_52 j = "SÍ" <-> IND_TIENE_RESP_52 (registro j) = Some true) /\
  (marca_resp_52 j = "No" <-> IND_TIENE_RESP_52 (registro j) <> Some true).
Proof.
  intros H Hj. apply extraer_responsabilidades_rut_inr in H.
  destruct H as (input & ids & fetched & _ & _ & _ & ->).
  apply df_joined_final_In in Hj. destruct Hj as (row & r & _ & _ & _ & ->).
  cbn [registro marca_resp_52 with_NOM_TIPO_CONTRIBUYENTE IND_TIENE_RESP_52].
  unfold marca_resp_52_of, col_eq_lit.
  destruct (IND_TIENE_RESP_52 r) as [[|]|]; cbn [option_map Bool.eqb when_otherwise];
    repeat split; intros; try reflexivity; try discriminate; try congruence.
Qed.

Lemma marca_resp_52_null_is_No_witness :
  let j := {| entrada := [Some 7%Z; Some 100%Z];
              registro := Ejemplos.fila 7 20230101 None "Persona Natural";
              marca_resp_52 := "No" |} in
  (IND_TIENE_RESP_52 (registro j) = None -> marca_resp_52 j = "No") /\
  (marca_resp_52 j = "SÍ" <-> IND_TIENE_RESP_52 (registro j) = Some true) /\
  (marca_resp_52 j = "No" <-> IND_TIENE_RESP_52 (registro j) <> Some true).
Proof.
  intros j.
  apply (marca_resp_52_null_is_No (SparkDataFrame Ejemplos.dos_veces)
           "numero_identificacion" Ejemplos.spark tt
           [ j; {| entrada := [Some 7%Z; Some 200%Z];
                   registro := Ejemplos.fila 7 20230101 None "Persona Natural";
                   marca_resp_52 := "No" |} ]).
  - vm_compute. reflexivity.
  - simpl. left. reflexivity.
Defined.

End RutFacts.

(** ** Fiscal-variable lookup *)

Module VariablesFacts.
Import Py Variables.

(** *** Strings *)

Lemma append_assoc (a b c : string) : (a ++ (b ++ c) = (a ++ b) ++ c)%string.
Proof. induction a as [|x a IH]; simpl; [reflexivity|]. now rewrite IH. Qed.

Lemma length_append (a b : string) :
  String.length (a ++ b) = (String.length a + String.length b)%nat.
Proof. induction a as [|x a IH]; simpl; [reflexivity|]. now rewrite IH. Qed.

Lemma all_digits_underscore (a b : string) :
  all_digits (a ++ String "_" b) = false.
Proof.
  induction a as [|x a IH]; [reflexivity|].
  cbn [append all_digits]. rewrite IH. apply andb_false_r.
Qed.

(** The digits after the last underscore are determined by the string. *)
Lemma split_at_last_underscore (x y d d' : string) :
  all_digits d = true -> all_digits d' = true ->
  (x ++ String "_" d = y ++ String "_" d')%string -> x = y /\ d = d'.
Proof.
  intros Hd Hd'. revert y. induction x as [|c x IH]; intros [|c' y] E; simpl in E.
  - injection E as ->. auto.
  - injection E as <- ->. rewrite all_digits_underscore in Hd. discriminate.
  - injection E as -> <-. rewrite all_digits_underscore in Hd'. discriminate.
  - injection E as -> E. destruct (IH y E) as [-> ->]. auto.
Qed.

Lemma lower_underscore (c : ascii) : lower c = "_"%char <-> c = "_"%char.
Proof.
  split; [|intros ->; reflexivity].
  destruct c as [[] [] [] [] [] [] [] []]; vm_compute; intros H;
    try reflexivity; discriminate.
Qed.

Lemma lower_space (c : ascii) : is_space c = true -> lower c = c.
Proof.
  destruct c as [[] [] [] [] [] [] [] []]; vm_compute; intros H;
    try reflexivity; discriminate.
Qed.

(** *** The pattern *)

(** The renderings of the token: four characters, the letters in any case. *)
Lemma casefold_token (tok : string) :
  casefold tok = "var_" <->
  exists v a r, tok = String v (String a (String r (String "_" ""))) /\
                lower v = "v"%char /\ lower a = "a"%char /\ lower r = "r"%char.
Proof.
  split.
  - unfold casefold.
    destruct tok as [|v [|a [|r [|u [|x tok]]]]]; cbn [map_string];
      try discriminate.
    intros H.
    injection H as Hv Ha Hr Hu.
    apply (proj1 (lower_underscore u)) in Hu. rewrite Hu. exists v, a, r. auto.
  - intros (v & a & r & -> & Hv & Ha & Hr).
    unfold casefold. cbn [map_string]. now rewrite Hv, Ha, Hr.
Qed.

Lemma match_VAR_digits_spec (s ds : string) :
  match_VAR_digits s = Some ds <->
  exists tok, s = (tok ++ ds)%string /\ casefold tok = "var_" /\
              ds <> "" /\ all_digits ds = true.
Proof.
  split.
  - destruct s as [|v [|a [|r [|u [|d ds']]]]]; try discriminate.
    unfold match_VAR_digits.
    destruct (Ascii.eqb (lower v) "v" && Ascii.eqb (lower a) "a"
              && Ascii.eqb (lower r) "r" && Ascii.eqb u "_"
              && all_digits (String d ds')) eqn:C; [|discriminate].
    intros H. injection H as <-.
    repeat rewrite andb_true_iff in C.
    destruct C as [[[[Cv Ca] Cr] Cu] Cd].
    apply Ascii.eqb_eq in Cv. apply Ascii.eqb_eq in Ca.
    apply Ascii.eqb_eq in Cr. apply Ascii.eqb_eq in Cu. rewrite Cu.
    exists (String v (String a (String r (String "_" "")))).
    split; [reflexivity|]. split; [|split; [discriminate|assumption]].
    apply casefold_token. exists v, a, r. auto.
  - intros (tok & -> & Hc & Hne & Hd).
    apply casefold_token in Hc. destruct Hc as (v & a & r & -> & Hv & Ha & Hr).
    destruct ds as [|d ds]; [contradiction|].
    cbn [append]. unfold match_VAR_digits.
    now rewrite Hv, Ha, Hr, Hd.
Qed.

Lemma re_search_VAR_sound (s g1 g2 : string) :
  re_search_VAR s = Some (g1, g2) ->
  exists rest, s = (g1 ++ rest)%string /\ no_newline g1 = true /\
               match_VAR_digits rest = Some g2.
Proof.
  revert g1 g2. induction s as [|c s IH]; intros g1 g2; [discriminate|].
  cbn [re_search_VAR].
  assert (Hhere : option_map (pair EmptyString) (match_VAR_digits (String c s))
                  = Some (g1, g2) ->
                  exists rest, String c s = (g1 ++ rest)%string /\
                               no_newline g1 = true /\
                               match_VAR_digits rest = Some g2).
  { destruct (match_VAR_digits (String c s)) as [ds|] eqn:M; [|discriminate].
    cbn [option_map]. intros H. injection H as <- <-.
    exists (String c s). auto. }
  destruct (is_newline c) eqn:N; [exact Hhere|].
  destruct (re_search_VAR s) as [[p d]|] eqn:R; [|exact Hhere].
  intros H. injection H as <- <-.
  destruct (IH p d eq_refl) as (rest & -> & Hn & Hm).
  exists rest. split; [reflexivity|]. split; [|assumption].
  cbn [no_newline]. now rewrite N, Hn.
Qed.

(** Nothing matches one character into a match: the digits at the end are
    preceded by the whole token. *)
Lemma re_search_VAR_tail (v : ascii) (s ds : string) :
  match_VAR_digits (String v s) = Some ds -> re_search_VAR s = None.
Proof.
  intros M. destruct (re_search_VAR s) as [[p d]|] eqn:R; [|reflexivity].
  exfalso.
  apply re_search_VAR_sound in R. destruct R as (rest & E & _ & M').
  apply match_VAR_digits_spec in M. apply match_VAR_digits_spec in M'.
  destruct M as (tok & Es & Hc & _ & Hd).
  destruct M' as (tok' & -> & Hc' & _ & Hd').
  apply casefold_token in Hc. destruct Hc as (v0 & a & r & -> & _).
  apply casefold_token in Hc'. destruct Hc' as (v' & a' & r' & -> & _).
  cbn [append] in Es. injection Es as _ ->.
  assert (E' : (String a (String r "") ++ String "_" ds
               = (p ++ String v' (String a' (String r' ""))) ++ String "_" d)%string).
  { rewrite <- append_assoc. exact E. }
  apply split_at_last_underscore in E'; try assumption.
  destruct E' as [E' _]. apply (f_equal String.length) in E'.
  rewrite length_append in E'. simpl in E'. lia.
Qed.

Lemma re_search_VAR_complete (g1 rest g2 : string) :
  no_newline g1 = true -> match_VAR_digits rest = Some g2 ->
  re_search_VAR (g1 ++ rest) = Some (g1, g2).
Proof.
  intros Hn M. induction g1 as [|c g1 IH].
  - cbn [append]. destruct rest as [|v s]; [discriminate|].
    cbn [re_search_VAR]. rewrite (re_search_VAR_tail v s g2 M), M.
    cbn [option_map]. now destruct (is_newline v).
  - cbn [no_newline] in Hn. apply andb_true_iff in Hn. destruct Hn as [Hc Hn].
    cbn [append re_search_VAR]. apply negb_true_iff in Hc.
    now rewrite Hc, (IH Hn).
Qed.

(** The pattern is anchored at both ends and reads the token without case:
    a code matches exactly when it is, from its first to its last character,
    a run without newline (group 1), then a rendering of [VAR_] in any case,
    then one or more digits (group 2). *)
Lemma re_search_VAR_spec (s g1 g2 : string) :
  re_search_VAR s = Some (g1, g2) <->
  exists tok, s = (g1 ++ tok ++ g2)%string /\ casefold tok = "var_" /\
              no_newline g1 = true /\ g2 <> "" /\ all_digits g2 = true.
Proof.
  split.
  - intros H. apply re_search_VAR_sound in H.
    destruct H as (rest & -> & Hn & M). apply match_VAR_digits_spec in M.
    destruct M as (tok & -> & Hc & Hne & Hd). exists tok. auto.
  - intros (tok & -> & Hc & Hn & Hne & Hd).
    apply re_search_VAR_complete; [assumption|].
    apply match_VAR_digits_spec. exists tok. auto.
Qed.

(** *** Trimming *)

Lemma casefold_no_space (s t : string) :
  casefold s = t ->
  forallb not_space (list_ascii_of_string t) = true ->
  forallb not_space (list_ascii_of_string s) = true.
Proof.
  revert t. induction s as [|c s IH]; intros t <-; [reflexivity|].
  unfold casefold. cbn [map_string list_ascii_of_string forallb].
  intros H. apply andb_true_iff in H. destruct H as [Hc Hs].
  apply andb_true_iff. split; [|now apply (IH (casefold s))].
  unfold not_space in *. destruct (is_space c) eqn:E; [|reflexivity].
  apply lower_space in E as E'. rewrite E', E in Hc. discriminate.
Qed.

Lemma lstrip_no_space (s : string) :
  forallb not_space (list_ascii_of_string s) = true -> lstrip s = s.
Proof.
  destruct s as [|c s]; [reflexivity|].
  cbn [list_ascii_of_string forallb lstrip]. intros H.
  apply andb_true_iff in H. destruct H as [Hc _].
  unfold not_space in Hc. apply negb_true_iff in Hc. now rewrite Hc.
Qed.

Lemma rstrip_no_space (s : string) :
  forallb not_space (list_ascii_of_string s) = true ->
  rstrip_by is_space s = s.
Proof.
  induction s as [|c s IH]; [reflexivity|].
  cbn [list_ascii_of_string forallb rstrip_by]. intros H.
  apply andb_true_iff in H. destruct H as [Hc Hs].
  rewrite (IH Hs). unfold not_space in Hc. apply negb_true_iff in Hc.
  destruct s; [now rewrite Hc|reflexivity].
Qed.

Lemma strip_no_space (s : string) :
  forallb not_space (list_ascii_of_string s) = true -> strip s = s.
Proof.
  intros H. unfold strip. rewrite (lstrip_no_space s H).
  now apply rstrip_no_space.
Qed.

(** Any rendering of the keyword, whatever its case, is marked. *)
Lemma mask_vig_casefold (s : string) :
  casefold s = "vigente" -> mask_vig (PStr s) = true.
Proof.
  intros H. unfold mask_vig. cbn [str_of].
  rewrite strip_no_space; [now rewrite H|].
  apply (casefold_no_space s "vigente" H). reflexivity.
Qed.

(** *** Integers as text *)

Lemma string_of_uint_chars (d : Decimal.uint) :
  forallb (fun c => is_digit c || Ascii.eqb c "-")
          (list_ascii_of_string (NilEmpty.string_of_uint d)) = true.
Proof. induction d; cbn [NilEmpty.string_of_uint list_ascii_of_string forallb]; auto. Qed.

(** The text of an integer is made of digits and at most a sign. *)
Lemma str_of_int_chars (z : Z) :
  forallb (fun c => is_digit c || Ascii.eqb c "-")
          (list_ascii_of_string (str_of_int z)) = true.
Proof.
  assert (U : forall d,
             forallb (fun c => is_digit c || Ascii.eqb c "-")
                     (list_ascii_of_string (NilZero.string_of_uint d)) = true).
  { intros d. unfold NilZero.string_of_uint.
    destruct d; try apply string_of_uint_chars. reflexivity. }
  unfold str_of_int, NilZero.string_of_int.
  destruct (Z.to_int z) as [d|d]; [apply U|].
  cbn [list_ascii_of_string forallb]. now rewrite U.
Qed.

Lemma numeral_char_not_space (c : ascii) :
  is_digit c || Ascii.eqb c "-" = true -> not_space c = true.
Proof.
  destruct c as [[] [] [] [] [] [] [] []]; vm_compute; intros H;
    try reflexivity; discriminate.
Qed.

Lemma numeral_char_not_v (c : ascii) :
  is_digit c || Ascii.eqb c "-" = true -> lower c <> "v"%char.
Proof.
  destruct c as [[] [] [] [] [] [] [] []]; vm_compute; intros H;
    try discriminate.
Qed.

(** [str(n)] read back by [int] is [n]: the text is the decimal numeral of
    the integer. *)
Lemma int_of_str_of_int (z : Z) :
  NilZero.int_of_string (str_of_int z) = Some (Z.to_int z).
Proof.
  unfold str_of_int. apply NilZero.isi.
  - destruct z as [|p|p]; cbn; try discriminate.
    intros H. injection H as H. now apply DecimalPos.Unsigned.to_uint_nonnil in H.
  - destruct z as [|p|p]; cbn; try discriminate.
    intros H. injection H as H. now apply DecimalPos.Unsigned.to_uint_nonnil in H.
Qed.

(** No integer reads "Vigente". *)
Lemma mask_vig_int (z : Z) : mask_vig (PInt z) = false.
Proof.
  unfold mask_vig. cbn [str_of]. apply String.eqb_neq.
  pose proof (str_of_int_chars z) as H.
  assert (Hs : forallb not_space (list_ascii_of_string (str_of_int z)) = true).
  { revert H. generalize (str_of_int z). intros s.
    induction s as [|c s IH]; [reflexivity|].
    cbn [list_ascii_of_string forallb]. intros H.
    apply andb_true_iff in H. destruct H as [Hc H].
    now rewrite (numeral_char_not_space c Hc), (IH H). }
  rewrite (strip_no_space _ Hs).
  destruct (str_of_int z) as [|c s]; [discriminate|].
  cbn [list_ascii_of_string forallb] in H.
  apply andb_true_iff in H. destruct H as [Hc _].
  unfold casefold. cbn [map_string]. intros E. injection E as E _.
  revert E. now apply numeral_char_not_v.
Qed.

(** *** Codes *)

Lemma py_int_inr (digits : string) (z : Z) :
  py_int digits = inr z <->
  (String.length digits <= int_max_str_digits)%nat /\ z = int_of_digits digits.
Proof.
  unfold py_int.
  destruct (int_max_str_digits <? String.length digits)%nat eqn:E.
  - apply Nat.ltb_lt in E. split; [discriminate|]. intros [H _]. lia.
  - apply Nat.ltb_ge in E. split.
    + intros H. injection H as <-. auto.
    + intros [_ ->]. reflexivity.
Qed.

Lemma py_int_inl (digits : string) (e : exc) :
  py_int digits = inl e <->
  (int_max_str_digits < String.length digits)%nat /\
  e = ValueError (msg_int_limit (String.length digits)).
Proof.
  unfold py_int.
  destruct (int_max_str_digits <? String.length digits)%nat eqn:E.
  - apply Nat.ltb_lt in E. split.
    + intros H. injection H as <-. auto.
    + intros [_ ->]. reflexivity.
  - apply Nat.ltb_ge in E. split; [discriminate|]. intros [H _]. lia.
Qed.

Lemma parse_var_code_None (var_code : string) :
  parse_var_code var_code = inr None <-> re_search_VAR (strip var_code) = None.
Proof.
  unfold parse_var_code.
  destruct (re_search_VAR (strip var_code)) as [[g1 g2]|].
  - destruct (py_int g2); cbn [bind]; split; discriminate.
  - tauto.
Qed.

Lemma parse_var_code_Some (var_code p : string) (v : Z) :
  parse_var_code var_code = inr (Some (p, v)) <->
  exists g1 g2,
    re_search_VAR (strip var_code) = Some (g1, g2) /\
    (String.length g2 <= int_max_str_digits)%nat /\
    p = rstrip_by (Ascii.eqb "_") g1 /\ v = int_of_digits g2.
Proof.
  unfold parse_var_code.
  destruct (re_search_VAR (strip var_code)) as [[g1 g2]|].
  - destruct (py_int g2) as [e|z] eqn:E; cbn [bind]; split.
    + discriminate.
    + intros (h1 & h2 & H & Hl & _). injection H as <- <-.
      assert (Hz : py_int g2 = inr (int_of_digits g2))
        by (apply py_int_inr; auto).
      congruence.
    + intros H. injection H as <- <-. apply py_int_inr in E.
      destruct E as [Hl ->]. exists g1, g2. auto.
    + intros (h1 & h2 & H & Hl & -> & ->). injection H as <- <-.
      apply py_int_inr in E. destruct E as [_ ->]. reflexivity.
  - split; [discriminate|]. intros (g1 & g2 & H & _). discriminate.
Qed.

Lemma parse_var_code_raises (var_code : string) (e : exc) :
  parse_var_code var_code = inl e <->
  exists g1 g2,
    re_search_VAR (strip var_code) = Some (g1, g2) /\
    (int_max_str_digits < String.length g2)%nat /\
    e = ValueError (msg_int_limit (String.length g2)).
Proof.
  unfold parse_var_code.
  destruct (re_search_VAR (strip var_code)) as [[g1 g2]|].
  - destruct (py_int g2) as [e'|z] eqn:E; cbn [bind]; split.
    + intros H. injection H as <-. apply py_int_inl in E.
      destruct E as [Hl ->]. exists g1, g2. auto.
    + intros (h1 & h2 & H & Hl & ->). injection H as <- <-.
      apply py_int_inl in E. destruct E as [_ ->]. reflexivity.
    + discriminate.
    + intros (h1 & h2 & H & Hl & _). injection H as <- <-.
      apply py_int_inr in E. destruct E as [E _]. lia.
  - split; [discriminate|]. intros (g1 & g2 & H & _). discriminate.
Qed.

(** *** Masks *)

Lemma na_and_true (a b : option bool) :
  na_and a b = Some true <-> a = Some true /\ b = Some true.
Proof.
  destruct a as [[|]|], b as [[|]|]; simpl; split;
    try discriminate; try tauto; intros [H1 H2]; discriminate.
Qed.

Lemma na_or_true (a b : option bool) :
  na_or a b = Some true <-> a = Some true \/ b = Some true.
Proof.
  destruct a as [[|]|], b as [[|]|]; simpl; split;
    try discriminate; try tauto; intros [H|H]; discriminate.
Qed.

Lemma loc_In {A : Type} (m : A -> option bool) (d : list A) (x : A) :
  In x (loc m d) <-> In x d /\ m x = Some true.
Proof.
  unfold loc. rewrite filter_In.
  destruct (m x) as [[|]|]; intuition discriminate.
Qed.

Lemma loc_nil {A : Type} (m : A -> option bool) (d : list A) :
  loc m d = [] <-> forall x, In x d -> m x <> Some true.
Proof.
  split.
  - intros E x Hx Hm.
    assert (H : In x (loc m d)) by (apply loc_In; auto).
    rewrite E in H. exact H.
  - intros H. destruct (loc m d) as [|x l] eqn:E; [reflexivity|].
    assert (Hx : In x (loc m d)) by (rewrite E; now left).
    apply loc_In in Hx. destruct Hx as [Hx Hm]. now apply H in Hx.
Qed.

(** The format column matches an integer equal to [format_id], or a whole
    float equal to it, and nothing else. *)
Lemma eq_format_true (v : pyval) (format_id : Z) :
  eq_format v format_id = true <->
  v = PInt format_id \/
  exists f, v = PFloat f /\ float_is_integer f = true /\ float_int f = format_id.
Proof.
  destruct v as [|z|f|s]; cbn [eq_format]; split.
  - discriminate.
  - intros [H|(f & H & _)]; discriminate.
  - intros H. apply Z.eqb_eq in H. left. now subst.
  - intros [H|(f & H & _)]; [|discriminate]. injection H as ->. apply Z.eqb_refl.
  - intros H. apply andb_true_iff in H. destruct H as [Hw H].
    apply Z.eqb_eq in H. right. exists f. auto.
  - intros [H|(f' & H & Hw & Hi)]; [discriminate|]. injection H as <-.
    rewrite Hw, Hi. apply Z.eqb_refl.
  - discriminate.
  - intros [H|(f & H & _)]; discriminate.
Qed.

(** A row passes the mask exactly when the four conditions hold. *)
Lemma mask_true (format_id var_number anogravable : Z) (r : NormalizedRow) :
  mask format_id var_number anogravable r = Some true <->
  eq_format (Codigo_del_Formato (source r)) format_id = true /\
  variable r = Some var_number /\
  (exists y, desde r = Some y /\ (y <= anogravable)%Z) /\
  (hasta r = None \/ exists y, hasta r = Some y /\ (anogravable <= y)%Z).
Proof.
  unfold mask. rewrite !na_and_true, na_or_true.
  assert (Hf : Some (eq_format (Codigo_del_Formato (source r)) format_id)
               = Some true
               <-> eq_format (Codigo_del_Formato (source r)) format_id = true).
  { split; intros H; [now injection H|now rewrite H]. }
  assert (Hv : option_map (fun v => (v =? var_number)%Z) (variable r) = Some true
               <-> variable r = Some var_number).
  { destruct (variable r) as [v|]; simpl; split; intros H; try discriminate.
    - injection H as H. apply Z.eqb_eq in H. now subst.
    - injection H as ->. now rewrite Z.eqb_refl. }
  assert (Hd : Some (negb (isna (desde r))) = Some true /\
               option_map (fun y => (y <=? anogravable)%Z) (desde r) = Some true
               <-> exists y, desde r = Some y /\ (y <= anogravable)%Z).
  { destruct (desde r) as [y|]; simpl; split.
    - intros [_ H]. injection H as H. apply Z.leb_le in H. eauto.
    - intros (y' & E & H). injection E as ->. apply Z.leb_le in H.
      now rewrite H.
    - intros [H _]. discriminate.
    - intros (y' & E & _). discriminate. }
  assert (Hh : Some (isna (hasta r)) = Some true \/
               option_map (fun y => (anogravable <=? y)%Z) (hasta r) = Some true
               <-> hasta r = None \/
                   exists y, hasta r = Some y /\ (anogravable <= y)%Z).
  { destruct (hasta r) as [y|]; simpl; split.
    - intros [H|H]; [discriminate|]. injection H as H. apply Z.leb_le in H.
      right. eauto.
    - intros [H|(y' & E & H)]; [discriminate|]. injection E as ->.
      apply Z.leb_le in H. rewrite H. now right.
    - now left.
    - now left. }
  rewrite Hf, Hv, <- Hd, <- Hh. tauto.
Qed.

(** *** The cast *)

Lemma in_int64_true (z : Z) :
  in_int64 z = true <-> (- 2 ^ 63 <= z <= 2 ^ 63 - 1)%Z.
Proof.
  unfold in_int64. rewrite andb_true_iff, !Z.leb_le. tauto.
Qed.

Lemma safe_cast_true (n : option (Z + pyfloat)) :
  safe_cast n = true <->
  match n with
  | None => True
  | Some (inl z) => (- 2 ^ 63 <= z <= 2 ^ 63 - 1)%Z
  | Some (inr f) =>
      float_is_integer f = true /\ (- 2 ^ 63 <= float_int f <= 2 ^ 63 - 1)%Z
  end.
Proof.
  destruct n as [[z|f]|]; cbn [safe_cast].
  - apply in_int64_true.
  - rewrite andb_true_iff, in_int64_true. tauto.
  - tauto.
Qed.

Lemma forallb_map {A B : Type} (f : B -> bool) (g : A -> B) (l : list A) :
  forallb f (map g l) = forallb (fun x => f (g x)) l.
Proof. induction l as [|x l IH]; cbn [map forallb]; [reflexivity|]. now rewrite IH. Qed.

Lemma assemble_map (rows : list MetadataRow)
      (fv fd fh : MetadataRow -> option Z) :
  assemble rows (map fv rows) (map fd rows) (map fh rows)
  = map (fun r => {| source := r; variable := fv r;
                     desde := fd r; hasta := fh r |}) rows.
Proof.
  induction rows as [|r rows IH]; cbn [map assemble]; [reflexivity|].
  now rewrite IH.
Qed.

(** *** The composed name *)

Lemma collect_parts_acc (row : NormalizedRow) (fields acc : list string) :
  fold_left
    (fun parts col =>
       let val := row_get row col in
       if notna val then parts ++ [strip (str_of val)] else parts)
    fields acc
  = acc ++ present_parts row fields.
Proof.
  revert acc. induction fields as [|col fields IH]; intros acc.
  - simpl. now rewrite app_nil_r.
  - cbn [fold_left]. rewrite IH. unfold present_parts. cbn [map filter].
    destruct (notna (row_get row col)); cbn [map]; [|reflexivity].
    now rewrite <- app_assoc.
Qed.

(** The loop collects what the specification lists. *)
Lemma collect_parts_present (row : NormalizedRow) (fields : list string) :
  collect_parts row fields = present_parts row fields.
Proof. unfold collect_parts. now rewrite collect_parts_acc. Qed.

Lemma present_parts_none (row : NormalizedRow) (fields : list string) :
  present_parts row fields = [] <->
  forall col, In col fields -> notna (row_get row col) = false.
Proof.
  unfold present_parts. induction fields as [|col fields IH]; cbn [map filter].
  - split; [intros _ col []|reflexivity].
  - destruct (notna (row_get row col)) eqn:E; cbn [map].
    + split; [discriminate|]. intros H. rewrite (H col) in E by now left.
      discriminate.
    + rewrite IH. split.
      * intros H c [<-|Hc]; auto.
      * intros H c Hc. apply H. now right.
Qed.

Lemma present_parts_app (row : NormalizedRow) (l1 l2 : list string) :
  present_parts row (l1 ++ l2) = present_parts row l1 ++ present_parts row l2.
Proof. unfold present_parts. now rewrite map_app, filter_app, map_app. Qed.

Lemma notna_false (v : pyval) : notna v = false <-> v = PNa.
Proof. destruct v; cbn [notna]; split; intros H; try reflexivity; discriminate. Qed.

(** The sheet has a column once: the value under a name is that of its
    first entry, and there is none for a name without entry. *)
Lemma assoc_first (col : string) (l1 : list (string * pyval)) (v : pyval)
      (l2 : list (string * pyval)) :
  (forall w, ~ In (col, w) l1) -> assoc col (l1 ++ (col, v) :: l2) = Some v.
Proof.
  induction l1 as [|[c w] l1 IH]; intros H; cbn [app assoc].
  - now rewrite String.eqb_refl.
  - destruct (String.eqb_spec col c) as [->|_].
    + exfalso. apply (H w). now left.
    + apply IH. intros w' Hw'. apply (H w'). now right.
Qed.

Lemma assoc_absent (col : string) (l : list (string * pyval)) :
  (forall w, ~ In (col, w) l) -> assoc col l = None.
Proof.
  induction l as [|[c w] l IH]; intros H; cbn [assoc]; [reflexivity|].
  destruct (String.eqb_spec col c) as [->|_].
  - exfalso. apply (H w). now left.
  - apply IH. intros w' Hw'. apply (H w'). now right.
Qed.

(** [row.get] on a column that is not one of the four the lookup filters
    on. *)
Lemma row_get_other (row : NormalizedRow) (col : string) :
  ~ In col ["Código del Formato"; "Código de la Variable";
            "Año Gravable Desde"; "Año Gravable Hasta"] ->
  row_get row col = match assoc col (otras (source row)) with
                    | Some v => v
                    | None => PNa
                    end.
Proof.
  intros Hcol. unfold row_get.
  repeat match goal with
         | |- context [String.eqb col ?s] =>
             destruct (String.eqb_spec col s) as [->|_];
             [exfalso; apply Hcol; cbn; tauto|]
         end.
  reflexivity.
Qed.

(** *** The lookup as a whole *)

Section LookupFacts.

Variable DF_METADATA : list MetadataRow.
Variable today_year : Z.
Variable to_numeric_text : string -> option (Z + pyfloat).

Local Abbreviation lookup :=
  (lookup_name_by_year DF_METADATA today_year to_numeric_text).
Local Abbreviation normalized cy := (normalize to_numeric_text cy).
Local Abbreviation castable cy :=
  (casts_safely DF_METADATA to_numeric_text cy).
Local Abbreviation numeric v := (to_numeric to_numeric_text v).

(** [current_year] as the function uses it. *)
Local Abbreviation year_of cy :=
  (match cy with None => today_year | Some y => y end).

(** The normalized copy of the sheet: every row of it normalized when the
    three casts go through, and a [TypeError] otherwise. *)
Lemma normalize_sheet_eq (cy : Z) :
  normalize_sheet DF_METADATA to_numeric_text cy
  = if castable cy then inr (map (normalized cy) DF_METADATA)
    else inl (TypeError msg_unsafe_cast).
Proof.
  unfold normalize_sheet, casts_safely, astype_Int64.
  rewrite !forallb_map.
  destruct (forallb (fun r => safe_cast (numeric (hasta_vigente cy r)))
                    DF_METADATA); cbn [bind andb]; [|reflexivity].
  destruct (forallb (fun r => safe_cast (numeric (Ano_Gravable_Desde r)))
                    DF_METADATA); cbn [bind andb]; [|reflexivity].
  destruct (forallb (fun r => safe_cast (numeric (Codigo_de_la_Variable r)))
                    DF_METADATA); cbn [bind andb]; [|reflexivity].
  rewrite !map_map, assemble_map. reflexivity.
Qed.

Lemma casts_safely_true (cy : Z) :
  castable cy = true <->
  forall r, In r DF_METADATA ->
            safe_cast (numeric (hasta_vigente cy r)) = true /\
            safe_cast (numeric (Ano_Gravable_Desde r)) = true /\
            safe_cast (numeric (Codigo_de_la_Variable r)) = true.
Proof.
  unfold casts_safely. rewrite !andb_true_iff, !forallb_forall. split.
  - intros [[H1 H2] H3] r Hr. auto.
  - intros H. repeat split; intros r Hr; now apply H.
Qed.

(** The lookup, step by step. *)
Lemma lookup_eq (format_id : Z) (var_code : string) (anogravable : Z)
      (compose_fields : list string) (sep : string) (current_year : option Z) :
  lookup format_id var_code anogravable compose_fields sep current_year
  = match parse_var_code var_code with
    | inl e => inl e
    | inr None => inr None
    | inr (Some (p, v)) =>
        if castable (year_of current_year)
        then match loc (mask format_id v anogravable)
                       (map (normalized (year_of current_year)) DF_METADATA) with
             | [] => inr None
             | row :: _ =>
                 inr (Some {| name_var := row_get row "Descripción de la Casilla";
                              composed_name :=
                                compose sep (collect_parts row compose_fields);
                              meta := {| prefix := p; var_number := v |} |})
             end
        else inl (TypeError msg_unsafe_cast)
    end.
Proof.
  unfold lookup_name_by_year.
  destruct (parse_var_code var_code) as [e|[[p v]|]]; cbn [bind];
    try reflexivity.
  rewrite normalize_sheet_eq.
  now destruct (castable (year_of current_year)).
Qed.

Lemma lookup_None (format_id : Z) (var_code : string) (anogravable : Z)
      (compose_fields : list string) (sep : string) (current_year : option Z) :
  lookup format_id var_code anogravable compose_fields sep current_year
  = inr None
  <-> parse_var_code var_code = inr None \/
      exists p v,
        parse_var_code var_code = inr (Some (p, v)) /\
        castable (year_of current_year) = true /\
        forall r, In r DF_METADATA ->
                  mask format_id v anogravable
                       (normalized (year_of current_year) r) <> Some true.
Proof.
  rewrite lookup_eq.
  destruct (parse_var_code var_code) as [e|[[p v]|]].
  - split; [discriminate|]. intros [H|(p & v & H & _)]; discriminate.
  - destruct (castable (year_of current_year)) eqn:C.
    + destruct (loc (mask format_id v anogravable)
                    (map (normalized (year_of current_year)) DF_METADATA))
        as [|row rest] eqn:E.
      * split; [|reflexivity]. intros _. right. exists p, v.
        split; [reflexivity|]. split; [reflexivity|].
        intros r Hr. apply (proj1 (loc_nil _ _) E). now apply in_map.
      * split; [discriminate|].
        intros [H|(p' & v' & H & _ & Hall)]; [discriminate|].
        injection H as <- <-. exfalso.
        assert (Hrow : In row (loc (mask format_id v anogravable)
                                   (map (normalized (year_of current_year))
                                        DF_METADATA)))
          by (rewrite E; now left).
        apply loc_In in Hrow. destruct Hrow as [Hin Hm].
        apply in_map_iff in Hin. destruct Hin as (r & <- & Hr).
        exact (Hall r Hr Hm).
    + split; [discriminate|].
      intros [H|(p' & v' & _ & H & _)]; discriminate.
  - tauto.
Qed.

Lemma lookup_Some (format_id : Z) (var_code : string) (anogravable : Z)
      (compose_fields : list string) (sep : string) (current_year : option Z)
      (res : Resolved) :
  lookup format_id var_code anogravable compose_fields sep current_year
  = inr (Some res) ->
  exists row rest,
    parse_var_code var_code
    = inr (Some (prefix (meta res), var_number (meta res))) /\
    castable (year_of current_year) = true /\
    loc (mask format_id (var_number (meta res)) anogravable)
        (map (normalized (year_of current_year)) DF_METADATA) = row :: rest /\
    name_var res = row_get row "Descripción de la Casilla" /\
    composed_name res = compose sep (collect_parts row compose_fields).
Proof.
  rewrite lookup_eq.
  destruct (parse_var_code var_code) as [e|[[p v]|]]; try discriminate.
  destruct (castable (year_of current_year)); [|discriminate].
  destruct (loc (mask format_id v anogravable)
                (map (normalized (year_of current_year)) DF_METADATA))
    as [|row rest] eqn:E; [discriminate|].
  intros H. injection H as <-. cbn [meta prefix var_number name_var composed_name].
  exists row, rest. auto.
Qed.

Lemma lookup_raises (format_id : Z) (var_code : string) (anogravable : Z)
      (compose_fields : list string) (sep : string) (current_year : option Z)
      (e : exc) :
  lookup format_id var_code anogravable compose_fields sep current_year = inl e
  <-> parse_var_code var_code = inl e \/
      exists p v,
        parse_var_code var_code = inr (Some (p, v)) /\
        castable (year_of current_year) = false /\
        e = TypeError msg_unsafe_cast.
Proof.
  rewrite lookup_eq.
  destruct (parse_var_code var_code) as [e'|[[p v]|]].
  - split; [intros H; injection H as ->; now left|].
    intros [H|(p & v & H & _)]; [now injection H as ->|discriminate].
  - destruct (castable (year_of current_year)).
    + split.
      * destruct (loc _ _); discriminate.
      * intros [H|(p' & v' & _ & H & _)]; discriminate.
    + split.
      * intros H. injection H as <-. right. exists p, v. auto.
      * intros [H|(p' & v' & _ & _ & ->)]; [discriminate|reflexivity].
  - split; [discriminate|]. intros [H|(p & v & H & _)]; discriminate.
Qed.

(** A row that passes the mask on a sheet that casts gives a result. *)
Lemma lookup_finds (format_id : Z) (var_code p : string) (v anogravable : Z)
      (compose_fields : list string) (sep : string) (current_year : option Z)
      (r : MetadataRow) :
  parse_var_code var_code = inr (Some (p, v)) ->
  castable (year_of current_year) = true ->
  In r DF_METADATA ->
  mask format_id v anogravable (normalized (year_of current_year) r)
  = Some true ->
  exists res,
    lookup format_id var_code anogravable compose_fields sep current_year
    = inr (Some res) /\
    meta res = {| prefix := p; var_number := v |}.
Proof.
  intros Hp Hc Hr Hm. rewrite lookup_eq, Hp, Hc.
  destruct (loc (mask format_id v anogravable)
                (map (normalized (year_of current_year)) DF_METADATA))
    as [|row rest] eqn:E.
  - exfalso. apply (proj1 (loc_nil _ _) E (normalized (year_of current_year) r));
      [now apply in_map|exact Hm].
  - eexists. split; reflexivity.
Qed.

(** *** The claims *)

(** C4, as amended.  The three numeric columns are coerced and cast column
    by column: the call goes on exactly when every coerced value of the
    last-year, first-year and variable-number columns is missing or a whole
    number within 64 bits, and raises [TypeError] otherwise.  When it goes
    on, an integer cell keeps its value, a whole float becomes its integer,
    a missing cell and a text that is no number become missing (neither
    makes the cast fail), and a last year that reads "Vigente" in any case
    becomes [current_year], which is this year's when the caller gives
    none.  A row is then selected exactly when its format equals
    [format_id], its variable number is [var_number], its first year is
    present and at most the tax year, and its last year is missing or at
    least the tax year; the lookup returns [None] exactly when no row is
    selected and a result exactly when one is.  The example of the
    specification finds its row on every sheet that casts and holds it. *)
Theorem resolve_selection
        (format_id var_number anogravable current_year : Z) :
  normalize_sheet DF_METADATA to_numeric_text current_year
  = (if castable current_year
     then inr (map (normalized current_year) DF_METADATA)
     else inl (TypeError msg_unsafe_cast)) /\
  (castable current_year = true <->
   forall r, In r DF_METADATA ->
             safe_cast (numeric (hasta_vigente current_year r)) = true /\
             safe_cast (numeric (Ano_Gravable_Desde r)) = true /\
             safe_cast (numeric (Codigo_de_la_Variable r)) = true) /\
  (forall v : pyval,
      safe_cast (numeric v) = true <->
      match numeric v with
      | None => True
      | Some (inl z) => (- 2 ^ 63 <= z <= 2 ^ 63 - 1)%Z
      | Some (inr f) =>
          float_is_integer f = true /\
          (- 2 ^ 63 <= float_int f <= 2 ^ 63 - 1)%Z
      end) /\
  (forall r : MetadataRow,
      In (normalized current_year r)
         (loc (mask format_id var_number anogravable)
              (map (normalized current_year) DF_METADATA))
      <-> In r DF_METADATA /\
          (Codigo_del_Formato r = PInt format_id \/
           exists f, Codigo_del_Formato r = PFloat f /\
                     float_is_integer f = true /\ float_int f = format_id) /\
          variable (normalized current_year r) = Some var_number /\
          (exists y, desde (normalized current_year r) = Some y /\
                     (y <= anogravable)%Z) /\
          (hasta (normalized current_year r) = None \/
           exists y, hasta (normalized current_year r) = Some y /\
                     (anogravable <= y)%Z)) /\
  (forall (r : MetadataRow) (z : Z),
      (Codigo_de_la_Variable r = PInt z ->
       variable (normalized current_year r) = Some z) /\
      (Ano_Gravable_Desde r = PInt z ->
       desde (normalized current_year r) = Some z) /\
      (Ano_Gravable_Hasta r = PInt z ->
       hasta (normalized current_year r) = Some z)) /\
  (forall (r : MetadataRow) (f : pyfloat),
      float_is_integer f = true ->
      (Codigo_de_la_Variable r = PFloat f ->
       variable (normalized current_year r) = Some (float_int f)) /\
      (Ano_Gravable_Desde r = PFloat f ->
       desde (normalized current_year r) = Some (float_int f)) /\
      (Ano_Gravable_Hasta r = PFloat f -> mask_vig (PFloat f) = false ->
       hasta (normalized current_year r) = Some (float_int f))) /\
  (forall r : MetadataRow,
      (Codigo_de_la_Variable r = PNa ->
       variable (normalized current_year r) = None) /\
      (Ano_Gravable_Desde r = PNa ->
       desde (normalized current_year r) = None) /\
      (Ano_Gravable_Hasta r = PNa ->
       hasta (normalized current_year r) = None)) /\
  (forall (r : MetadataRow) (s : string),
      Ano_Gravable_Hasta r = PStr s -> casefold s = "vigente" ->
      hasta (normalized current_year r) = Some current_year) /\
  (forall (r : MetadataRow) (s : string),
      to_numeric_text s = None ->
      safe_cast (numeric (PStr s)) = true /\
      (Codigo_de_la_Variable r = PStr s ->
       variable (normalized current_year r) = None) /\
      (Ano_Gravable_Desde r = PStr s ->
       desde (normalized current_year r) = None) /\
      (Ano_Gravable_Hasta r = PStr s -> mask_vig (PStr s) = false ->
       hasta (normalized current_year r) = None)) /\
  (forall (var_code p : string) (fields : list string) (sep : string),
      parse_var_code var_code = inr (Some (p, var_number)) ->
      (castable current_year = false ->
       lookup format_id var_code anogravable fields sep (Some current_year)
       = inl (TypeError msg_unsafe_cast)) /\
      (castable current_year = true ->
       (lookup format_id var_code anogravable fields sep (Some current_year)
        = inr None
        <-> forall r, In r DF_METADATA ->
                      ~ In (normalized current_year r)
                           (loc (mask format_id var_number anogravable)
                                (map (normalized current_year) DF_METADATA))) /\
       ((exists r, In (normalized current_year r)
                      (loc (mask format_id var_number anogravable)
                           (map (normalized current_year) DF_METADATA)))
        <-> exists res,
             lookup format_id var_code anogravable fields sep
                    (Some current_year) = inr (Some res) /\
             meta res = {| prefix := p; var_number := var_number |}))) /\
  (forall (var_code : string) (fields : list string) (sep : string),
      lookup format_id var_code anogravable fields sep None =
      lookup format_id var_code anogravable fields sep (Some today_year)) /\
  (forall (fields : list string) (sep : string),
      castable 2024 = true ->
      In Ejemplos.casilla_33 DF_METADATA ->
      exists res,
        lookup 210 "VAR_0033" 2022 fields sep (Some 2024%Z) = inr (Some res) /\
        meta res = {| prefix := ""; var_number := 33 |}).
Proof.
  assert (Hsel : forall r : MetadataRow,
             In (normalized current_year r)
                (loc (mask format_id var_number anogravable)
                     (map (normalized current_year) DF_METADATA))
             <-> In r DF_METADATA /\
                 mask format_id var_number anogravable
                      (normalized current_year r) = Some true).
  { intros r. rewrite loc_In. split.
    - intros [Hin H]. split; [|exact H].
      apply in_map_iff in Hin. destruct Hin as (r' & E & Hr').
      apply (f_equal source) in E. cbn [source normalize] in E. now subst.
    - intros [Hr H]. split; [now apply in_map|exact H]. }
  split; [apply normalize_sheet_eq|].
  split; [apply casts_safely_true|].
  split; [intros v; apply safe_cast_true|].
  split.
  { intros r. rewrite Hsel, mask_true, eq_format_true.
    cbn [source normalize]. tauto. }
  split.
  { intros r z. repeat split; intros E.
    - cbn [variable normalize]. now rewrite E.
    - cbn [desde normalize]. now rewrite E.
    - cbn [hasta normalize]. unfold hasta_vigente.
      now rewrite E, mask_vig_int. }
  split.
  { intros r f Hw. repeat split.
    - intros E. cbn [variable normalize]. now rewrite E.
    - intros E. cbn [desde normalize]. now rewrite E.
    - intros E Hv. cbn [hasta normalize]. unfold hasta_vigente.
      now rewrite E, Hv. }
  split.
  { intros r. repeat split; intros E.
    - cbn [variable normalize]. now rewrite E.
    - cbn [desde normalize]. now rewrite E.
    - cbn [hasta normalize]. unfold hasta_vigente. now rewrite E. }
  split.
  { intros r s E Hc. cbn [hasta normalize]. unfold hasta_vigente.
    now rewrite E, (mask_vig_casefold s Hc). }
  split.
  { intros r s Hs. split; [cbn [to_numeric]; now rewrite Hs|].
    repeat split.
    - intros E. cbn [variable normalize]. rewrite E. cbn [to_numeric].
      now rewrite Hs.
    - intros E. cbn [desde normalize]. rewrite E. cbn [to_numeric].
      now rewrite Hs.
    - intros E Hv. cbn [hasta normalize]. unfold hasta_vigente.
      rewrite E, Hv. cbn [to_numeric]. now rewrite Hs. }
  split.
  { intros var_code p fields sep Hp. split.
    - intros Hc. apply lookup_raises. right. exists p, var_number. auto.
    - intros Hc. split.
      + rewrite lookup_None. split.
        * intros [H|(p' & v' & H & _ & Hall)]; [congruence|].
          rewrite Hp in H. injection H as <- <-.
          intros r Hr Hin. apply Hsel in Hin. destruct Hin as [_ Hm].
          exact (Hall r Hr Hm).
        * intros Hall. right. exists p, var_number.
          split; [exact Hp|]. split; [exact Hc|].
          intros r Hr Hm. apply (Hall r Hr). apply Hsel. auto.
      + split.
        * intros (r & Hin). apply Hsel in Hin. destruct Hin as [Hr Hm].
          exact (lookup_finds format_id var_code p var_number anogravable
                              fields sep (Some current_year) r Hp Hc Hr Hm).
        * intros (res & H & _). apply lookup_Some in H.
          destruct H as (row & rest & Hp' & _ & Hloc & _).
          rewrite Hp in Hp'. injection Hp' as _ Hv.
          rewrite <- Hv in Hloc.
          assert (Hrow : In row (loc (mask format_id var_number anogravable)
                                     (map (normalized current_year)
                                          DF_METADATA)))
            by (rewrite Hloc; now left).
          pose proof Hrow as Hrow'. apply loc_In in Hrow'.
          destruct Hrow' as [Hin _]. apply in_map_iff in Hin.
          destruct Hin as (r & <- & _). now exists r. }
  split; [reflexivity|].
  intros fields sep Hc Hin.
  apply (lookup_finds 210 "VAR_0033" "" 33 2022 fields sep (Some 2024%Z)
                      Ejemplos.casilla_33); try assumption; reflexivity.
Qed.

(** C5.  The code, once trimmed, matches from its first to its last
    character: a run without newline, then [VAR_] in any case, then one or
    more digits; the prefix is that run without its trailing underscores and
    the number is what [int] reads in the digits.  So ["FE_VAR_0007"] gives
    prefix ["FE"] and number 7, ["var_12"] gives the empty prefix and
    number 12, and ["VARX_5"] does not parse, on which the lookup returns
    [None]; a lookup that returns a result reports the parsed prefix and
    number. *)
Theorem var_code_parsing :
  (forall s g1 g2 : string,
      re_search_VAR s = Some (g1, g2) <->
      exists tok, s = (g1 ++ tok ++ g2)%string /\ casefold tok = "var_" /\
                  no_newline g1 = true /\ g2 <> "" /\ all_digits g2 = true) /\
  (forall var_code : string,
      parse_var_code var_code =
      match re_search_VAR (strip var_code) with
      | None => inr None
      | Some g =>
          if (int_max_str_digits <? String.length (snd g))%nat
          then inl (ValueError (msg_int_limit (String.length (snd g))))
          else inr (Some (rstrip_by (Ascii.eqb "_") (fst g),
                          int_of_digits (snd g)))
      end) /\
  parse_var_code "FE_VAR_0007" = inr (Some ("FE", 7%Z)) /\
  parse_var_code "var_12" = inr (Some ("", 12%Z)) /\
  parse_var_code "VARX_5" = inr None /\
  (forall (format_id anogravable : Z) (fields : list string) (sep : string)
          (current_year : option Z),
      lookup format_id "VARX_5" anogravable fields sep current_year
      = inr None) /\
  (forall (format_id : Z) (var_code : string) (anogravable : Z)
          (fields : list string) (sep : string) (current_year : option Z)
          (res : Resolved),
      lookup format_id var_code anogravable fields sep current_year
      = inr (Some res) ->
      parse_var_code var_code
      = inr (Some (prefix (meta res), var_number (meta res)))).
Proof.
  split; [exact re_search_VAR_spec|].
  split.
  { intros var_code. unfold parse_var_code, py_int.
    destruct (re_search_VAR (strip var_code)) as [[g1 g2]|]; [|reflexivity].
    cbn [fst snd].
    now destruct (int_max_str_digits <? String.length g2)%nat. }
  split; [reflexivity|]. split; [reflexivity|]. split; [reflexivity|].
  split.
  - intros. apply lookup_None. now left.
  - intros format_id var_code anogravable fields sep current_year res H.
    apply lookup_Some in H. destruct H as (row & rest & Hp & _). exact Hp.
Qed.

(** C6.  When the lookup returns a result, [composed_name] is built from
    the first selected row: the values of the listed fields that are
    present, in the order of the list, each stringified and trimmed, joined
    with [sep].  It is [None] exactly when none of the listed fields is
    present, and when exactly one of them is present it is that value,
    stringified and trimmed, with no separator.  The value of a field is
    what the row holds under that name: the format as the sheet has it,
    the variable number and the two years as normalized (an integer, or
    missing), any other column as the sheet has it, and a missing value for
    a column the sheet does not have.  Only a missing value is not present;
    an integer is stringified as its decimal numeral, a float as its
    [repr], a text as itself. *)
Theorem composed_name_is_join
        (format_id : Z) (var_code : string) (anogravable : Z)
        (fields : list string) (sep : string) (current_year : option Z)
        (res : Resolved) :
  lookup format_id var_code anogravable fields sep current_year
  = inr (Some res) ->
  exists row rest,
    loc (mask format_id (var_number (meta res)) anogravable)
        (map (normalized (year_of current_year)) DF_METADATA) = row :: rest /\
    composed_name res =
      match present_parts row fields with
      | [] => None
      | parts => Some (String.concat sep parts)
      end /\
    (composed_name res = None <->
     forall col, In col fields -> notna (row_get row col) = false) /\
    (forall (before : list string) (col : string) (after : list string),
        fields = before ++ col :: after ->
        (forall c, In c before -> notna (row_get row c) = false) ->
        (forall c, In c after -> notna (row_get row c) = false) ->
        notna (row_get row col) = true ->
        composed_name res = Some (strip (str_of (row_get row col)))) /\
    row_get row "Código del Formato" = Codigo_del_Formato (source row) /\
    row_get row "Código de la Variable"
    = match variable row with Some z => PInt z | None => PNa end /\
    row_get row "Año Gravable Desde"
    = match desde row with Some y => PInt y | None => PNa end /\
    row_get row "Año Gravable Hasta"
    = match hasta row with Some y => PInt y | None => PNa end /\
    (forall (col : string) (l1 : list (string * pyval)) (v : pyval)
            (l2 : list (string * pyval)),
        ~ In col ["Código del Formato"; "Código de la Variable";
                  "Año Gravable Desde"; "Año Gravable Hasta"] ->
        otras (source row) = l1 ++ (col, v) :: l2 ->
        (forall w, ~ In (col, w) l1) ->
        row_get row col = v) /\
    (forall col : string,
        ~ In col ["Código del Formato"; "Código de la Variable";
                  "Año Gravable Desde"; "Año Gravable Hasta"] ->
        (forall w, ~ In (col, w) (otras (source row))) ->
        row_get row col = PNa) /\
    (forall v : pyval, notna v = false <-> v = PNa) /\
    (forall z : Z,
        NilZero.int_of_string (str_of (PInt z)) = Some (Z.to_int z)) /\
    (forall f : pyfloat, str_of (PFloat f) = float_repr f) /\
    (forall s : string, str_of (PStr s) = s).
Proof.
  intros H. apply lookup_Some in H.
  destruct H as (row & rest & _ & _ & Hloc & _ & Hc).
  exists row, rest. rewrite collect_parts_present in Hc.
  split; [exact Hloc|]. split; [|split; [|split]].
  - rewrite Hc. unfold compose. now destruct (present_parts row fields).
  - rewrite Hc, <- present_parts_none. unfold compose.
    destruct (present_parts row fields); split; intros E;
      try reflexivity; discriminate.
  - intros before col after -> Hb Ha Hcol. rewrite Hc.
    rewrite present_parts_app.
    rewrite (proj2 (present_parts_none row before) Hb).
    change (col :: after) with ([col] ++ after).
    rewrite present_parts_app.
    rewrite (proj2 (present_parts_none row after) Ha).
    unfold present_parts. cbn [map filter]. rewrite Hcol. reflexivity.
  - split; [reflexivity|].
    split; [now destruct (variable row) eqn:E; unfold row_get; cbn; rewrite E|].
    split; [now destruct (desde row) eqn:E; unfold row_get; cbn; rewrite E|].
    split; [now destruct (hasta row) eqn:E; unfold row_get; cbn; rewrite E|].
    split.
    { intros col l1 v l2 Hcol E Hl1.
      now rewrite (row_get_other row col Hcol), E, (assoc_first col l1 v l2 Hl1). }
    split.
    { intros col Hcol Hno.
      now rewrite (row_get_other row col Hcol), (assoc_absent col _ Hno). }
    split; [exact notna_false|].
    split; [exact int_of_str_of_int|].
    split; reflexivity.
Qed.

(** C7, as amended.  The lookup raises in two cases only: [ValueError] when
    the code matches with more digits than [int] accepts, and [TypeError]
    when the code parses and a value of the three numeric columns cannot be
    cast.  Otherwise it returns, and it returns [None] exactly when the code
    does not parse or no row of the sheet passes the mask; a code that does
    not match the pattern gives [None] whatever the sheet.  On a sheet that
    casts and has no format 999 the lookup of ["VAR_1"] for format 999 and
    year 2000 returns [None]. *)
Theorem not_found_is_returned
        (format_id : Z) (var_code : string) (anogravable : Z)
        (fields : list string) (sep : string) (current_year : option Z) :
  (lookup format_id var_code anogravable fields sep current_year = inr None
   <-> parse_var_code var_code = inr None \/
       exists p v,
         parse_var_code var_code = inr (Some (p, v)) /\
         castable (year_of current_year) = true /\
         forall r, In r DF_METADATA ->
                   mask format_id v anogravable
                        (normalized (year_of current_year) r) <> Some true) /\
  (forall e : exc,
      lookup format_id var_code anogravable fields sep current_year = inl e
      <-> (exists g1 g2,
              re_search_VAR (strip var_code) = Some (g1, g2) /\
              (int_max_str_digits < String.length g2)%nat /\
              e = ValueError (msg_int_limit (String.length g2))) \/
          (exists p v,
              parse_var_code var_code = inr (Some (p, v)) /\
              castable (year_of current_year) = false /\
              e = TypeError msg_unsafe_cast)) /\
  (re_search_VAR (strip var_code) = None ->
   lookup format_id var_code anogravable fields sep current_year = inr None) /\
  (castable (year_of current_year) = true ->
   (forall r, In r DF_METADATA ->
              eq_format (Codigo_del_Formato r) 999 = false) ->
   lookup 999 "VAR_1" 2000 fields sep current_year = inr None).
Proof.
  split; [apply lookup_None|].
  split; [intros e; rewrite lookup_raises, parse_var_code_raises; tauto|].
  split.
  - intros H. apply lookup_None. left. now apply parse_var_code_None.
  - intros Hc Hno. apply lookup_None. right. exists "", 1%Z.
    split; [reflexivity|]. split; [exact Hc|].
    intros r Hr Hm. apply mask_true in Hm. destruct Hm as [Hf _].
    cbn [source normalize] in Hf. rewrite (Hno r Hr) in Hf. discriminate.
Qed.

End LookupFacts.

(** A run of the lookup on the sample row with the default fields, and one
    on a row whose box number pandas holds as a float. *)
Lemma composed_name_is_join_witness :
  (exists res,
    lookup_name_by_year [Ejemplos.casilla_33] 2025 Hojas.lee_digitos
      210 "VAR_0033" 2022 default_compose_fields default_sep (Some 2024%Z)
    = inr (Some res) /\
    composed_name res = Some "33_2020_2024" /\
    exists row rest,
      loc (mask 210 (var_number (meta res)) 2022)
          (map (normalize Hojas.lee_digitos 2024) [Ejemplos.casilla_33])
      = row :: rest /\
      composed_name res =
        match present_parts row default_compose_fields with
        | [] => None
        | parts => Some (String.concat default_sep parts)
        end /\
      (composed_name res = None <->
       forall col,
         In col default_compose_fields ->
         notna (row_get row col) = false) /\
      (forall (before : list string) (col : string) (after : list string),
          default_compose_fields = before ++ col :: after ->
          (forall c, In c before -> notna (row_get row c) = false) ->
          (forall c, In c after -> notna (row_get row c) = false) ->
          notna (row_get row col) = true ->
          composed_name res = Some (strip (str_of (row_get row col)))) /\
      row_get row "Código del Formato" = Codigo_del_Formato (source row) /\
      row_get row "Código de la Variable"
      = match variable row with Some z => PInt z | None => PNa end /\
      row_get row "Año Gravable Desde"
      = match desde row with Some y => PInt y | None => PNa end /\
      row_get row "Año Gravable Hasta"
      = match hasta row with Some y => PInt y | None => PNa end /\
      (forall (col : string) (l1 : list (string * pyval)) (v : pyval)
              (l2 : list (string * pyval)),
          ~ In col ["Código del Formato"; "Código de la Variable";
                    "Año Gravable Desde"; "Año Gravable Hasta"] ->
          otras (source row) = l1 ++ (col, v) :: l2 ->
          (forall w, ~ In (col, w) l1) ->
          row_get row col = v) /\
      (forall col : string,
          ~ In col ["Código del Formato"; "Código de la Variable";
                    "Año Gravable Desde"; "Año Gravable Hasta"] ->
          (forall w, ~ In (col, w) (otras (source row))) ->
          row_get row col = PNa) /\
      (forall v : pyval, notna v = false <-> v = PNa) /\
      (forall z : Z,
          NilZero.int_of_string (str_of (PInt z)) = Some (Z.to_int z)) /\
      (forall f : pyfloat, str_of (PFloat f) = float_repr f) /\
      (forall s : string, str_of (PStr s) = s)) /\
  (exists res,
    lookup_name_by_year [Hojas.casilla_float] 2025 Hojas.lee_digitos
      210 "VAR_0033" 2022 ["Descripción de la Variable"; "Número Casilla"]
      "_" (Some 2024%Z) = inr (Some res) /\
    composed_name res = Some "33.0").
Proof.
  split.
  - eexists. split; [vm_compute; reflexivity|]. split; [reflexivity|].
    apply (composed_name_is_join [Ejemplos.casilla_33] 2025 Hojas.lee_digitos
             210 "VAR_0033" 2022 default_compose_fields default_sep
             (Some 2024%Z)).
    vm_compute. reflexivity.
  - eexists. split; vm_compute; reflexivity.
Defined.

(** The example of the specification; a row valid from 2015 to 2019 asked
    for 2022; and a row whose first year is a text that is no number. *)
Lemma resolve_selection_witness :
  (exists res,
    lookup_name_by_year [Ejemplos.casilla_33] 2025 Hojas.lee_digitos
      210 "VAR_0033" 2022 default_compose_fields default_sep (Some 2024%Z)
    = inr (Some res) /\
    meta res = {| prefix := ""; var_number := 33 |}) /\
  lookup_name_by_year [Hojas.cerrada] 2025 Hojas.lee_digitos
    210 "VAR_33" 2022 default_compose_fields default_sep (Some 2024%Z)
  = inr None /\
  lookup_name_by_year [Hojas.sin_desde] 2025 Hojas.lee_digitos
    210 "VAR_33" 2022 default_compose_fields default_sep (Some 2024%Z)
  = inr None.
Proof.
  split; [|split].
  - apply (proj2 (proj2 (proj2 (proj2 (proj2 (proj2 (proj2 (proj2 (proj2
             (proj2 (proj2
               (resolve_selection [Ejemplos.casilla_33] 2025
                  Hojas.lee_digitos 210 33 2022 2024)))))))))))).
    + reflexivity.
    + left. reflexivity.
  - apply (proj2 (proj1 (proj2
             (proj1 (proj2 (proj2 (proj2 (proj2 (proj2 (proj2 (proj2 (proj2
                (proj2
                  (resolve_selection [Hojas.cerrada] 2025
                     Hojas.lee_digitos 210 33 2022 2024))))))))))
                "VAR_33" "" default_compose_fields default_sep eq_refl)
             eq_refl))).
    intros r [<-|[]]. vm_compute. tauto.
  - apply (proj2 (proj1 (proj2
             (proj1 (proj2 (proj2 (proj2 (proj2 (proj2 (proj2 (proj2 (proj2
                (proj2
                  (resolve_selection [Hojas.sin_desde] 2025
                     Hojas.lee_digitos 210 33 2022 2024))))))))))
                "VAR_33" "" default_compose_fields default_sep eq_refl)
             eq_refl))).
    intros r [<-|[]]. vm_compute. tauto.
Defined.

(** The row of the example meets the four conditions and is found when it
    is alone in the sheet; with another row whose last year is not a whole
    number the same call raises. *)
Lemma fractional_year_fails_the_lookup :
  In Ejemplos.casilla_33 [Ejemplos.casilla_33; Hojas.fraccion] /\
  mask 210 33 2022 (normalize Hojas.lee_digitos 2024 Ejemplos.casilla_33)
  = Some true /\
  (exists res,
      lookup_name_by_year [Ejemplos.casilla_33] 2025
        Hojas.lee_digitos 210 "VAR_0033" 2022 default_compose_fields
        default_sep (Some 2024%Z)
      = inr (Some res)) /\
  lookup_name_by_year [Ejemplos.casilla_33; Hojas.fraccion] 2025
    Hojas.lee_digitos 210 "VAR_0033" 2022 default_compose_fields default_sep
    (Some 2024%Z)
  = inl (TypeError msg_unsafe_cast).
Proof.
  split; [now left|]. split; [vm_compute; reflexivity|].
  split; [eexists|]; vm_compute; reflexivity.
Qed.

Lemma var_code_parsing_witness :
  exists res,
    lookup_name_by_year [Ejemplos.casilla_33] 2025 Hojas.lee_digitos
      210 " FE_var_0033 " 2022 default_compose_fields default_sep None
    = inr (Some res) /\
    parse_var_code " FE_var_0033 "
    = inr (Some (prefix (meta res), var_number (meta res))).
Proof.
  eexists. split; [vm_compute; reflexivity|].
  apply (proj2 (proj2 (proj2 (proj2 (proj2 (proj2
           (var_code_parsing [Ejemplos.casilla_33] 2025
              Hojas.lee_digitos))))))
           210%Z " FE_var_0033 " 2022%Z default_compose_fields default_sep None).
  vm_compute. reflexivity.
Defined.

Lemma not_found_is_returned_witness :
  lookup_name_by_year [Ejemplos.casilla_33] 2025 Hojas.lee_digitos
    999 "VAR_1" 2000 default_compose_fields default_sep None = inr None.
Proof.
  apply (proj2 (proj2 (proj2
           (not_found_is_returned [Ejemplos.casilla_33] 2025
              Hojas.lee_digitos 999 "VAR_1" 2000
              default_compose_fields default_sep None)))).
  - reflexivity.
  - intros r [<-|[]]. reflexivity.
Defined.

(** Two calls that raise: a code with 4301 digits, on the empty sheet, and
    a code that parses on a sheet that has no row of the format asked for
    but has a last year that is not a whole number. *)
Lemma lookup_raises_on_some_inputs :
  lookup_name_by_year [] 2025 Hojas.lee_digitos
    999 (Hojas.codigo_largo 4301) 2000 default_compose_fields default_sep None
  = inl (ValueError (msg_int_limit 4301)) /\
  (forall r, In r [Hojas.fraccion] ->
             eq_format (Codigo_del_Formato r) 999 = false) /\
  lookup_name_by_year [Hojas.fraccion] 2025 Hojas.lee_digitos
    999 "VAR_1" 2000 default_compose_fields default_sep None
  = inl (TypeError msg_unsafe_cast).
Proof.
  split; [|split; [|vm_compute; reflexivity]].
  - apply lookup_raises. left. apply parse_var_code_raises.
    exists "", (string_of_list_ascii (repeat "1"%char 4301)).
    split; [|split].
    + apply re_search_VAR_spec. exists "VAR_".
      split; [vm_compute; reflexivity|].
      split; [reflexivity|]. split; [reflexivity|].
      split; [discriminate|vm_compute; reflexivity].
    + apply Nat.ltb_lt. vm_compute. reflexivity.
    + vm_compute. reflexivity.
  - intros r [<-|[]]. reflexivity.
Qed.

End VariablesFacts.

(** ** Registry enrichment: resolution and join as a whole *)

Module RutExtras.
Import Py Spark SparkFacts Rut RutFacts.

(** *** Frames whose keys are already unique *)

Section UniqueKeys.
Context {A : Type}.
Variable key : A -> option Z.

Lemma partition_of_nil_iff (k : option Z) (l : list A) :
  partition_of key k l = [] <-> ~ In k (map key l).
Proof.
  split.
  - intros E Hin. apply in_map_iff in Hin. destruct Hin as (x & <- & Hx).
    assert (H : In x (partition_of key (key x) l))
      by (apply partition_of_In; auto).
    rewrite E in H. exact H.
  - intros H. apply partition_of_none. intros x Hx E. apply H.
    rewrite <- E. now apply in_map.
Qed.

Lemma partition_of_unique (l : list A) (a : A) :
  NoDup (map key l) -> In a l -> partition_of key (key a) l = [a].
Proof.
  induction l as [|b l IH]; cbn [map In]; [tauto|].
  intros ND Hin. inversion ND as [|? ? Hn ND']; subst.
  rewrite partition_of_cons. destruct Hin as [->|Hin].
  - rewrite key_eqb_refl. f_equal. now apply partition_of_nil_iff.
  - destruct (key_eqb (key a) (key b)) eqn:E.
    + apply key_eqb_eq in E. exfalso. apply Hn. rewrite <- E. now apply in_map.
    + now apply IH.
Qed.

Lemma distinct_unique (ks : list (option Z)) : NoDup ks -> distinct ks = ks.
Proof.
  induction 1 as [|k ks Hn ND IH]; cbn [distinct]; [reflexivity|].
  rewrite IH. f_equal. apply forallb_filter_id. apply forallb_forall.
  intros k' Hk'. apply negb_true_iff, key_eqb_neq. congruence.
Qed.

Lemma flat_map_singletons {B : Type} (g : B -> list B) (l : list B) :
  (forall a, In a l -> g a = [a]) -> flat_map g l = l.
Proof.
  induction l as [|a l IH]; cbn [flat_map]; intros H; [reflexivity|].
  rewrite (H a) by now left. cbn [app]. f_equal. apply IH.
  intros b Hb. apply H. now right.
Qed.

Lemma flat_map_of_map {B C : Type} (f : B -> list C) (h : A -> B) (l : list A) :
  flat_map f (map h l) = flat_map (fun a => f (h a)) l.
Proof.
  induction l as [|a l IH]; cbn [map flat_map]; [reflexivity|]. now rewrite IH.
Qed.

Variable before : A -> A -> bool.

(** A window over keys that do not repeat ranks every row first. *)
Lemma keep_first_ranked_unique (l : list A) :
  NoDup (map key l) ->
  keep_first_ranked (row_number_over key before l) = l.
Proof.
  intros ND. rewrite keep_first_ranked_row_number, (distinct_unique _ ND).
  rewrite flat_map_of_map. apply flat_map_singletons.
  intros a Ha. now rewrite (partition_of_unique l a ND Ha).
Qed.

End UniqueKeys.

Lemma map_fst_with_increasing_id {A : Type} (l : list A) (n : nat) :
  map fst (combine l (seq n (List.length l))) = l.
Proof.
  revert n. induction l as [|a l IH]; intros n; cbn; [reflexivity|].
  now rewrite IH.
Qed.

Lemma NoDup_keys_at_most_one {A : Type} (key : A -> option Z) (l : list A)
      (k : option Z) :
  NoDup (map key l) -> (List.length (partition_of key k l) <= 1)%nat.
Proof.
  intros ND. destruct (partition_of key k l) as [|a p] eqn:E; [simpl; lia|].
  assert (Ha : In a (partition_of key k l)) by (rewrite E; now left).
  apply partition_of_In in Ha. destruct Ha as [Ha <-].
  rewrite (partition_of_unique key l a ND Ha) in E.
  injection E as <-. simpl. lia.
Qed.

Lemma drop_duplicates_first_unique (df : list RegistryRow) :
  NoDup (map NUM_NIT df) -> drop_duplicates_first df = df.
Proof.
  intros ND. unfold drop_duplicates_first, with_increasing_id.
  rewrite keep_first_ranked_unique.
  - apply map_fst_with_increasing_id.
  - rewrite <- (map_map fst NUM_NIT), map_fst_with_increasing_id. exact ND.
Qed.

Lemma duplicated_nits_df_unique (df : list RegistryRow) :
  NoDup (map NUM_NIT df) -> duplicated_nits_df df = [].
Proof.
  intros ND. destruct (duplicated_nits_df df) as [|k ks] eqn:E; [reflexivity|].
  assert (Hk : In k (duplicated_nits_df df)) by (rewrite E; now left).
  apply duplicated_nits_df_In in Hk.
  pose proof (NoDup_keys_at_most_one NUM_NIT df k ND). lia.
Qed.

Lemma join_left_anti_nil (df : list RegistryRow) : join_left_anti df [] = df.
Proof.
  unfold join_left_anti. apply forallb_filter_id. apply forallb_forall.
  reflexivity.
Qed.

Lemma join_inner_nil (df : list RegistryRow) : join_inner df [] = [].
Proof.
  unfold join_inner. induction df as [|r df IH]; cbn; [reflexivity|exact IH].
Qed.

Lemma clean_unique (df : list RegistryRow) :
  NoDup (map NUM_NIT df) -> df_infor_rut_int_personas_clean df = df.
Proof.
  intros ND. unfold df_infor_rut_int_personas_clean, df_non_dupes,
    df_dupes_cleaned, df_dupes_ranked, df_dupes.
  rewrite (duplicated_nits_df_unique df ND), join_left_anti_nil, join_inner_nil.
  cbn [row_number_over map distinct flat_map keep_first_ranked filter].
  rewrite app_nil_r. now apply drop_duplicates_first_unique.
Qed.

(** *** The rows without identifier *)

Lemma filter_filter_implied {A : Type} (P Q : A -> bool) (l : list A) :
  (forall x, P x = true -> Q x = true) ->
  filter P (filter Q l) = filter P l.
Proof.
  intros H. induction l as [|a l IH]; cbn [filter]; [reflexivity|].
  destruct (Q a) eqn:Eq; cbn [filter].
  - now rewrite IH.
  - destruct (P a) eqn:Ep; [|exact IH].
    apply H in Ep. congruence.
Qed.

Lemma existsb_sql_eqb_None (keys : list (option Z)) :
  existsb (sql_eqb None) keys = false.
Proof. induction keys as [|k keys IH]; [reflexivity|exact IH]. Qed.

Lemma partition_of_None_join_left_anti (df : list RegistryRow)
      (keys : list (option Z)) :
  partition_of NUM_NIT None (join_left_anti df keys) =
  partition_of NUM_NIT None df.
Proof.
  unfold join_left_anti, partition_of. apply filter_filter_implied.
  intros r Hr. apply key_eqb_eq in Hr. rewrite <- Hr.
  now rewrite existsb_sql_eqb_None.
Qed.

Lemma partition_of_None_join_inner (df : list RegistryRow)
      (keys : list (option Z)) :
  partition_of NUM_NIT None (join_inner df keys) = [].
Proof.
  apply partition_of_none. intros x Hx E. unfold join_inner in Hx.
  apply in_flat_map in Hx. destruct Hx as (r & _ & Hx).
  apply in_map_iff in Hx. destruct Hx as (k & <- & Hk).
  apply filter_In in Hk. destruct Hk as [_ Hk]. rewrite E in Hk. discriminate.
Qed.

Lemma clean_partition_None (df : list RegistryRow) :
  partition_of NUM_NIT None (df_infor_rut_int_personas_clean df) =
  firstn 1 (partition_of NUM_NIT None df).
Proof.
  unfold df_infor_rut_int_personas_clean.
  rewrite partition_of_drop_duplicates_first, partition_of_app.
  unfold df_non_dupes, df_dupes_cleaned, df_dupes_ranked, df_dupes.
  rewrite partition_of_None_join_left_anti, partition_of_keep_first_ranked.
  rewrite partition_of_None_join_inner. cbn [sort fold_right firstn].
  now rewrite app_nil_r.
Qed.

(** *** What resolution keeps *)

Lemma partition_of_nonempty {A : Type} (key : A -> option Z) (k : option Z)
      (l : list A) :
  In k (map key l) <-> partition_of key k l <> [].
Proof.
  split.
  - intros H E. now apply (partition_of_nil_iff key) in E.
  - intros H. destruct (partition_of key k l) as [|a p] eqn:E; [contradiction|].
    assert (Ha : In a (partition_of key k l)) by (rewrite E; now left).
    apply partition_of_In in Ha. destruct Ha as [Ha <-]. now apply in_map.
Qed.

Lemma firstn_1_nonempty {A : Type} (l : list A) : firstn 1 l <> [] <-> l <> [].
Proof. destruct l; simpl; split; intros H; congruence. Qed.

Lemma sort_nonempty {A : Type} (before : A -> A -> bool) (l : list A) :
  sort before l <> [] <-> l <> [].
Proof.
  pose proof (sort_length before l) as H.
  destruct (sort before l), l; simpl in H; split; intros; congruence.
Qed.

Lemma clean_partition_any (k : option Z) (df : list RegistryRow) :
  partition_of NUM_NIT k (df_infor_rut_int_personas_clean df) =
  firstn 1 (match k with
            | Some _ => sort fec_cambio_desc (partition_of NUM_NIT k df)
            | None => partition_of NUM_NIT k df
            end).
Proof. destruct k; [apply clean_partition|apply clean_partition_None]. Qed.

Lemma clean_In (df : list RegistryRow) (r : RegistryRow) :
  In r (df_infor_rut_int_personas_clean df) -> In r df.
Proof.
  intros H.
  assert (Hp : In r (partition_of NUM_NIT (NUM_NIT r)
                                  (df_infor_rut_int_personas_clean df)))
    by (apply partition_of_In; auto).
  rewrite clean_partition_any in Hp. apply firstn_1_In in Hp.
  destruct (NUM_NIT r); [apply sort_In in Hp|]; now apply partition_of_In in Hp.
Qed.

Lemma clean_keys (df : list RegistryRow) (k : option Z) :
  In k (map NUM_NIT (df_infor_rut_int_personas_clean df)) <->
  In k (map NUM_NIT df).
Proof.
  rewrite !partition_of_nonempty, clean_partition_any, firstn_1_nonempty.
  destruct k; [apply sort_nonempty|reflexivity].
Qed.

(** *** Properties of resolution *)

(** X1.  Resolution only drops rows: every row that survives is one of the
    fetched rows, unaltered, and every fetched [NUM_NIT], the NULL one
    included, still has a row. *)
Theorem resolution_keeps_every_identifier (df : list RegistryRow) :
  (forall r, In r (df_infor_rut_int_personas_clean df) -> In r df) /\
  (forall k, In k (map NUM_NIT (df_infor_rut_int_personas_clean df)) <->
             In k (map NUM_NIT df)).
Proof. split; [apply clean_In|intros k; apply clean_keys]. Qed.

(** X2.  Whatever the dates, an identifier with at least one fetched row
    keeps exactly one of them, and no fetched row of that identifier has a
    later [FEC_CAMBIO] than the one kept (a NULL date counting as the
    earliest).  Rows with equal dates included, identifiers fetched once
    included. *)
Theorem latest_row_survives (df : list RegistryRow) (n : Z) :
  In (Some n) (map NUM_NIT df) ->
  exists r,
    partition_of NUM_NIT (Some n) (df_infor_rut_int_personas_clean df) = [r] /\
    In r df /\ NUM_NIT r = Some n /\
    forall r', In r' df -> NUM_NIT r' = Some n ->
               fec_leb (FEC_CAMBIO r') (FEC_CAMBIO r) = true.
Proof.
  intros Hin. rewrite clean_partition.
  apply partition_of_nonempty in Hin.
  apply (sort_nonempty fec_cambio_desc) in Hin.
  destruct (sort fec_cambio_desc (partition_of NUM_NIT (Some n) df))
    as [|h t] eqn:Es; [contradiction|].
  assert (Hh : In h (partition_of NUM_NIT (Some n) df)).
  { apply (sort_In fec_cambio_desc). rewrite Es. now left. }
  apply partition_of_In in Hh. destruct Hh as [Hdf Hk].
  exists h. repeat split; try assumption.
  intros r' Hr' Hk'.
  assert (Hp : In r' (partition_of NUM_NIT (Some n) df))
    by (apply partition_of_In; auto).
  exact (sort_head fec_cambio_desc fec_cambio_desc_total
                   fec_cambio_desc_trans _ _ _ Es r' Hp).
Qed.

Lemma latest_row_survives_witness :
  exists r,
    partition_of NUM_NIT (Some 5%Z)
      (df_infor_rut_int_personas_clean Ejemplos.int_personas) = [r] /\
    In r Ejemplos.int_personas /\ NUM_NIT r = Some 5%Z /\
    forall r', In r' Ejemplos.int_personas -> NUM_NIT r' = Some 5%Z ->
               fec_leb (FEC_CAMBIO r') (FEC_CAMBIO r) = true.
Proof.
  apply (latest_row_survives Ejemplos.int_personas 5).
  vm_compute. tauto.
Defined.

(** X3.  Resolution is idempotent, and it returns a frame in which no
    [NUM_NIT] repeats as it is: the second pass is a safety net that changes
    nothing once the first has made the keys unique. *)
Theorem resolution_idempotent (df : list RegistryRow) :
  df_infor_rut_int_personas_clean (df_infor_rut_int_personas_clean df) =
  df_infor_rut_int_personas_clean df /\
  (NoDup (map NUM_NIT df) -> df_infor_rut_int_personas_clean df = df) /\
  (NoDup (map NUM_NIT df) -> drop_duplicates_first df = df).
Proof.
  split; [apply clean_unique, clean_NoDup|].
  split; [apply clean_unique|apply drop_duplicates_first_unique].
Qed.

Lemma resolution_idempotent_witness :
  df_infor_rut_int_personas_clean
    [Ejemplos.fila 5 20190101 None "Persona juridica";
     Ejemplos.fila 7 20230101 None "persona natural"]
  = [Ejemplos.fila 5 20190101 None "Persona juridica";
     Ejemplos.fila 7 20230101 None "persona natural"].
Proof.
  apply (proj1 (proj2 (resolution_idempotent _))).
  vm_compute. repeat constructor; simpl; intuition discriminate.
Defined.

(** *** Properties of the call *)

Lemma df_joined_final_length (input : DataFrame) (clean : list RegistryRow) :
  (forall k, List.length (partition_of NUM_NIT k clean) <= 1)%nat ->
  (List.length (df_joined_final input clean) <= List.length (rows input))%nat.
Proof.
  intros Hone. unfold df_joined_final. generalize (rows input). intros l.
  induction l as [|row l IH]; cbn [flat_map]; [simpl; lia|].
  rewrite length_app, length_map. cbn [List.length].
  assert (Hm : (List.length
                  (filter (fun r => sql_eqb (field input "numero_identificacion" row)
                                            (NUM_NIT r)) clean) <= 1)%nat).
  { destruct (field input "numero_identificacion" row) as [n|].
    - erewrite filter_ext; [apply (Hone (Some n))|].
      intros r. apply sql_eqb_Some.
    - rewrite filter_nothing; [simpl; lia|reflexivity]. }
  exact (Nat.add_le_mono _ 1 _ _ Hm IH).
Qed.

(** X4.  When the call returns, every returned row is one of the caller's
    rows, whose identifier is not NULL, followed by a fetched row of that
    same identifier: the fetched row as the store gave it, but for
    [NOM_TIPO_CONTRIBUYENTE], which is normalized, and with [marca_resp_52]
    computed from its own flag. *)
Theorem returned_rows_are_matches
        (o : py_object) (nombre_campo_rut : string) (spark : SparkSession)
        (dbutils : unit) (out : list JoinedRow) :
  extraer_responsabilidades_rut o nombre_campo_rut spark dbutils = inr out ->
  exists input ids fetched,
    (o' <- convertir_entrada o spark ;; printSchema o') = inr input /\
    select input "numero_identificacion" = inr ids /\
    sql spark (query_int_personas
                 (String.concat ", " (map str_of_cell (distinct ids))))
    = inr fetched /\
    forall j, In j out ->
      In (entrada j) (rows input) /\
      exists n r,
        field input "numero_identificacion" (entrada j) = Some n /\
        In r fetched /\ NUM_NIT r = Some n /\
        registro j = with_NOM_TIPO_CONTRIBUYENTE
                       (normalizar_tipo (NOM_TIPO_CONTRIBUYENTE r)) r /\
        marca_resp_52 j = marca_resp_52_of r.
Proof.
  intros H. apply extraer_responsabilidades_rut_inr in H.
  destruct H as (input & ids & fetched & Hin & Hsel & Hsql & ->).
  exists input, ids, fetched. repeat split; try assumption.
  - apply df_joined_final_In in H. now destruct H as (row & r & Hrow & _ & _ & ->).
  - apply df_joined_final_In in H. destruct H as (row & r & Hrow & Hr & E & ->).
    apply sql_eqb_true in E. destruct E as (n & Hf & Hn).
    exists n, r. cbn [entrada registro marca_resp_52].
    repeat split; try assumption. now apply clean_In.
Qed.

Lemma returned_rows_are_matches_witness :
  exists input ids fetched,
    (o' <- convertir_entrada (SparkDataFrame Ejemplos.dos_veces) Ejemplos.spark ;;
     printSchema o') = inr input /\
    select input "numero_identificacion" = inr ids /\
    sql Ejemplos.spark
        (query_int_personas
           (String.concat ", " (map str_of_cell (distinct ids))))
    = inr fetched /\
    forall j,
      In j [ {| entrada := [Some 7%Z; Some 100%Z];
                registro := Ejemplos.fila 7 20230101 None "Persona Natural";
                marca_resp_52 := "No" |};
             {| entrada := [Some 7%Z; Some 200%Z];
                registro := Ejemplos.fila 7 20230101 None "Persona Natural";
                marca_resp_52 := "No" |} ] ->
      In (entrada j) (rows input) /\
      exists n r,
        field input "numero_identificacion" (entrada j) = Some n /\
        In r fetched /\ NUM_NIT r = Some n /\
        registro j = with_NOM_TIPO_CONTRIBUYENTE
                       (normalizar_tipo (NOM_TIPO_CONTRIBUYENTE r)) r /\
        marca_resp_52 j = marca_resp_52_of r.
Proof.
  apply (returned_rows_are_matches (SparkDataFrame Ejemplos.dos_veces)
           "numero_identificacion" Ejemplos.spark tt).
  vm_compute. reflexivity.
Defined.

(** X5.  When the call returns, a row of the caller is found in the returned
    frame exactly when its identifier is not NULL and the store returned at
    least one row for it; every other row is dropped without notice, and the
    returned frame never has more rows than the caller's. *)
Theorem unmatched_rows_are_dropped
        (o : py_object) (nombre_campo_rut : string) (spark : SparkSession)
        (dbutils : unit) (out : list JoinedRow) :
  extraer_responsabilidades_rut o nombre_campo_rut spark dbutils = inr out ->
  exists input ids fetched,
    (o' <- convertir_entrada o spark ;; printSchema o') = inr input /\
    select input "numero_identificacion" = inr ids /\
    sql spark (query_int_personas
                 (String.concat ", " (map str_of_cell (distinct ids))))
    = inr fetched /\
    (forall row, In row (rows input) ->
       ((exists j, In j out /\ entrada j = row) <->
        exists n, field input "numero_identificacion" row = Some n /\
                  In (Some n) (map NUM_NIT fetched))) /\
    (List.length out <= List.length (rows input))%nat.
Proof.
  intros H. apply extraer_responsabilidades_rut_inr in H.
  destruct H as (input & ids & fetched & Hin & Hsel & Hsql & ->).
  exists input, ids, fetched. repeat split; try assumption.
  - intros (j & Hj & Ej). apply df_joined_final_In in Hj.
    destruct Hj as (row' & r & _ & Hr & E & ->). cbn [entrada] in Ej. subst row'.
    apply sql_eqb_true in E. destruct E as (n & Hf & Hn).
    exists n. split; [assumption|]. apply clean_keys. rewrite <- Hn.
    now apply in_map.
  - intros (n & Hf & Hn). apply clean_keys in Hn. apply in_map_iff in Hn.
    destruct Hn as (r & Hk & Hr).
    exists {| entrada := row;
              registro := with_NOM_TIPO_CONTRIBUYENTE
                            (normalizar_tipo (NOM_TIPO_CONTRIBUYENTE r)) r;
              marca_resp_52 := marca_resp_52_of r |}.
    split; [|reflexivity]. apply df_joined_final_In. exists row, r.
    repeat split; try assumption. rewrite Hf, Hk. cbn. apply Z.eqb_refl.
  - apply df_joined_final_length. intros k. apply clean_at_most_one.
Qed.

Lemma unmatched_rows_are_dropped_witness :
  exists input ids fetched,
    (o' <- convertir_entrada (SparkDataFrame Ejemplos.rut_y_numero)
                             Ejemplos.spark ;;
     printSchema o') = inr input /\
    select input "numero_identificacion" = inr ids /\
    sql Ejemplos.spark
        (query_int_personas
           (String.concat ", " (map str_of_cell (distinct ids))))
    = inr fetched /\
    (forall row, In row (rows input) ->
       ((exists j,
            In j [ {| entrada := [Some 5%Z; Some 7%Z];
                      registro :=
                        Ejemplos.fila 7 20230101 None "Persona Natural";
                      marca_resp_52 := "No" |} ] /\
            entrada j = row) <->
        exists n, field input "numero_identificacion" row = Some n /\
                  In (Some n) (map NUM_NIT fetched))) /\
    (List.length
       [ {| entrada := [Some 5%Z; Some 7%Z];
            registro := Ejemplos.fila 7 20230101 None "Persona Natural";
            marca_resp_52 := "No" |} ]
     <= List.length (rows input))%nat.
Proof.
  apply (unmatched_rows_are_dropped (SparkDataFrame Ejemplos.rut_y_numero)
           "rut" Ejemplos.spark tt).
  vm_compute. reflexivity.
Defined.

Lemma column_index_In (name : string) (cols : list string) :
  In name cols -> exists i, column_index name cols = Some i.
Proof.
  induction cols as [|c cols IH]; cbn [In column_index]; [tauto|].
  intros H. destruct (String.eqb name c) eqn:E; [eauto|].
  apply String.eqb_neq in E. destruct H as [H|H]; [congruence|].
  destruct (IH H) as (i & ->). cbn. eauto.
Qed.

(** X6.  On a frame that has the identifier column but no row, the call
    still queries the store, with nothing between the parentheses of
    [IN ( )]: it fails as the store fails on that text, and returns a frame
    without rows otherwise. *)
Theorem empty_frame_still_queries
        (cols : list string) (nombre_campo_rut : string)
        (spark : SparkSession) (dbutils : unit) :
  In "numero_identificacion" cols ->
  extraer_responsabilidades_rut
    (SparkDataFrame {| columns := cols; rows := [] |})
    nombre_campo_rut spark dbutils
  = match sql spark (query_int_personas "") with
    | inl msg => inl (SparkError msg)
    | inr _ => inr []
    end.
Proof.
  intros H. apply column_index_In in H. destruct H as (i & Hi).
  unfold extraer_responsabilidades_rut, convertir_entrada, select, bind.
  cbn [hasattr_select negb printSchema columns rows]. rewrite Hi.
  cbn [map distinct String.concat].
  now destruct (sql spark (query_int_personas "")).
Qed.

Lemma empty_frame_still_queries_witness :
  extraer_responsabilidades_rut
    (SparkDataFrame {| columns := ["numero_identificacion"; "valor"];
                       rows := [] |})
    "numero_identificacion" Ejemplos.spark tt
  = match sql Ejemplos.spark (query_int_personas "") with
    | inl msg => inl (SparkError msg)
    | inr _ => inr []
    end.
Proof.
  apply (empty_frame_still_queries ["numero_identificacion"; "valor"]).
  left. reflexivity.
Defined.

End RutExtras.

(** ** Fiscal-variable lookup: codes, rows and years *)

Module VariablesExtras.
Import Py Variables VariablesFacts.

(** *** Trimming twice *)

Lemma rstrip_by_cons (p : ascii -> bool) (c : ascii) (s : string) :
  rstrip_by p (String c s) =
  match rstrip_by p s with
  | EmptyString => if p c then EmptyString else String c EmptyString
  | t => String c t
  end.
Proof. reflexivity. Qed.

Lemma rstrip_by_idem (p : ascii -> bool) (s : string) :
  rstrip_by p (rstrip_by p s) = rstrip_by p s.
Proof.
  induction s as [|c s IH]; [reflexivity|].
  rewrite rstrip_by_cons. destruct (rstrip_by p s) as [|a t] eqn:E.
  - destruct (p c) eqn:Ec; [reflexivity|].
    rewrite rstrip_by_cons. cbn [rstrip_by]. now rewrite Ec.
  - rewrite rstrip_by_cons, IH. reflexivity.
Qed.

Lemma lstrip_head (s : string) :
  lstrip s = "" \/ exists c r, lstrip s = String c r /\ is_space c = false.
Proof.
  induction s as [|c s IH]; [now left|]. cbn [lstrip].
  destruct (is_space c) eqn:E; [exact IH|]. right. eauto.
Qed.

Lemma rstrip_keeps_head (c : ascii) (r : string) :
  is_space c = false ->
  exists r', rstrip_by is_space (String c r) = String c r'.
Proof.
  intros E. rewrite rstrip_by_cons.
  destruct (rstrip_by is_space r); [rewrite E|]; eauto.
Qed.

Lemma strip_idem (s : string) : strip (strip s) = strip s.
Proof.
  unfold strip. destruct (lstrip_head s) as [E|(c & r & E & Hc)]; rewrite E.
  - reflexivity.
  - destruct (rstrip_keeps_head c r Hc) as (r' & E').
    rewrite E'. cbn [lstrip]. rewrite Hc, <- E'. apply rstrip_by_idem.
Qed.

(** *** What trailing characters are removed *)

Lemma rstrip_by_split (p : ascii -> bool) (s : string) :
  exists t, s = (rstrip_by p s ++ t)%string.
Proof.
  induction s as [|c s IH]; [now exists ""|].
  destruct IH as (t & Ht). rewrite rstrip_by_cons.
  destruct (rstrip_by p s) as [|a r] eqn:E.
  - destruct (p c).
    + now exists (String c s).
    + exists t. cbn [append] in *. now rewrite <- Ht.
  - exists t. cbn [append] in *. now rewrite <- Ht.
Qed.

Lemma rstrip_by_last (p : ascii -> bool) (s q : string) (c : ascii) :
  rstrip_by p s = (q ++ String c "")%string -> p c = false.
Proof.
  revert q. induction s as [|a s IH]; intros q.
  - destruct q; discriminate.
  - rewrite rstrip_by_cons. destruct (rstrip_by p s) as [|b t] eqn:E.
    + destruct (p a) eqn:Ea; [destruct q; discriminate|].
      destruct q as [|x q]; cbn [append]; intros H.
      * now injection H as <-.
      * injection H as _ H. destruct q; discriminate.
    + destruct q as [|x q]; cbn [append]; intros H; [discriminate|].
      injection H as _ H. exact (IH q H).
Qed.

Lemma no_newline_append (a b : string) :
  no_newline (a ++ b) = no_newline a && no_newline b.
Proof.
  induction a as [|c a IH]; cbn [append no_newline]; [reflexivity|].
  now rewrite IH, andb_assoc.
Qed.

Lemma int_of_digits_nonneg (s : string) :
  all_digits s = true -> (0 <= int_of_digits s)%Z.
Proof.
  unfold int_of_digits.
  assert (H : forall acc, (0 <= acc)%Z -> all_digits s = true ->
                          (0 <= fold_left (fun a c => 10 * a + digit_value c)%Z
                                          (list_ascii_of_string s) acc)%Z).
  { induction s as [|c s IH]; intros acc Hacc Hd; [exact Hacc|].
    cbn [all_digits] in Hd. apply andb_true_iff in Hd. destruct Hd as [Hc Hd].
    cbn [list_ascii_of_string fold_left]. apply IH; [|exact Hd].
    unfold is_digit in Hc. apply andb_true_iff in Hc. destruct Hc as [Hc _].
    apply Nat.leb_le in Hc. unfold digit_value. lia. }
  apply H. lia.
Qed.

(** *** Codes *)

(** X8.  Blanks around the code do not count: trimming a code before the
    call changes neither what it parses to nor what the lookup returns, and
    trimming twice is trimming once. *)
Theorem lookup_ignores_surrounding_blanks
        (DF_METADATA : list MetadataRow) (today_year : Z)
        (to_numeric_text : string -> option (Z + pyfloat))
        (format_id : Z) (var_code : string) (anogravable : Z)
        (fields : list string) (sep : string) (current_year : option Z) :
  strip (strip var_code) = strip var_code /\
  parse_var_code (strip var_code) = parse_var_code var_code /\
  lookup_name_by_year DF_METADATA today_year to_numeric_text
    format_id (strip var_code) anogravable fields sep current_year
  = lookup_name_by_year DF_METADATA today_year to_numeric_text
      format_id var_code anogravable fields sep current_year.
Proof.
  assert (Hp : parse_var_code (strip var_code) = parse_var_code var_code)
    by (unfold parse_var_code; now rewrite strip_idem).
  split; [apply strip_idem|]. split; [exact Hp|].
  unfold lookup_name_by_year. now rewrite Hp.
Qed.

(** X9.  Whatever a code parses to, the number is not negative, the prefix
    has no newline and does not end with an underscore, and the trimmed code
    begins with the prefix. *)
Theorem parsed_code_shape (var_code p : string) (v : Z) :
  parse_var_code var_code = inr (Some (p, v)) ->
  (0 <= v)%Z /\
  no_newline p = true /\
  (forall q, p <> (q ++ "_")%string) /\
  exists rest, strip var_code = (p ++ rest)%string.
Proof.
  intros H. apply parse_var_code_Some in H.
  destruct H as (g1 & g2 & E & _ & -> & ->).
  apply re_search_VAR_spec in E.
  destruct E as (tok & Es & _ & Hn & _ & Hd).
  destruct (rstrip_by_split (Ascii.eqb "_") g1) as (t & Ht).
  split; [now apply int_of_digits_nonneg|]. split; [|split].
  - rewrite Ht, no_newline_append in Hn. apply andb_true_iff in Hn. tauto.
  - intros q Hq. apply rstrip_by_last in Hq. discriminate.
  - exists (t ++ tok ++ g2)%string. rewrite append_assoc, <- Ht. exact Es.
Qed.

Lemma parsed_code_shape_witness :
  (0 <= 7)%Z /\
  no_newline "FE" = true /\
  (forall q, "FE" <> (q ++ "_")%string) /\
  exists rest, strip " FE__var_0007 " = ("FE" ++ rest)%string.
Proof.
  apply (parsed_code_shape " FE__var_0007 " "FE" 7).
  vm_compute. reflexivity.
Defined.

Lemma int_of_digits_zero (ds : string) :
  int_of_digits (String "0" ds) = int_of_digits ds.
Proof. reflexivity. Qed.

(** A code parses to its parts when its digits are within the limit, and
    raises when they are not. *)
Lemma parse_var_code_parts (var_code g1 tok ds : string) :
  strip var_code = (g1 ++ tok ++ ds)%string ->
  casefold tok = "var_" -> no_newline g1 = true ->
  ds <> "" -> all_digits ds = true ->
  parse_var_code var_code
  = if (int_max_str_digits <? String.length ds)%nat
    then inl (ValueError (msg_int_limit (String.length ds)))
    else inr (Some (rstrip_by (Ascii.eqb "_") g1, int_of_digits ds)).
Proof.
  intros Hs Hc Hn Hne Hd.
  assert (E : re_search_VAR (strip var_code) = Some (g1, ds))
    by (apply re_search_VAR_spec; exists tok; auto).
  unfold parse_var_code, py_int. rewrite E.
  now destruct (int_max_str_digits <? String.length ds)%nat.
Qed.

(** X10.  Zeros in front of the number do not count, up to the number of
    digits [int] accepts: a code and the same code with one more zero after
    [VAR_], blanks around either left aside, parse to the same prefix and
    number as long as the longer run has at most 4300 digits, and the lookup
    then returns the same for both; with 4300 digits in the shorter run, the
    shorter code parses and the longer one raises. *)
Theorem zero_padding_is_irrelevant (var_code padded g1 tok ds : string) :
  strip var_code = (g1 ++ tok ++ ds)%string ->
  strip padded = (g1 ++ tok ++ String "0" ds)%string ->
  casefold tok = "var_" -> no_newline g1 = true ->
  ds <> "" -> all_digits ds = true ->
  ((S (String.length ds) <= int_max_str_digits)%nat ->
   parse_var_code padded = parse_var_code var_code /\
   parse_var_code var_code
   = inr (Some (rstrip_by (Ascii.eqb "_") g1, int_of_digits ds)) /\
   forall (DF_METADATA : list MetadataRow) (today_year : Z)
          (to_numeric_text : string -> option (Z + pyfloat))
          (format_id anogravable : Z) (fields : list string) (sep : string)
          (current_year : option Z),
     lookup_name_by_year DF_METADATA today_year to_numeric_text
       format_id padded anogravable fields sep current_year
     = lookup_name_by_year DF_METADATA today_year to_numeric_text
         format_id var_code anogravable fields sep current_year) /\
  (String.length ds = int_max_str_digits ->
   parse_var_code var_code
   = inr (Some (rstrip_by (Ascii.eqb "_") g1, int_of_digits ds)) /\
   parse_var_code padded
   = inl (ValueError (msg_int_limit (S int_max_str_digits)))).
Proof.
  intros Hs Hs' Hc Hn Hne Hd.
  assert (Hd0 : all_digits (String "0" ds) = true)
    by (cbn [all_digits]; now rewrite Hd).
  pose proof (parse_var_code_parts var_code g1 tok ds Hs Hc Hn Hne Hd) as P.
  assert (P' := parse_var_code_parts padded g1 tok (String "0" ds) Hs' Hc Hn).
  specialize (P' ltac:(discriminate) Hd0).
  rewrite int_of_digits_zero in P'. cbn [String.length] in P'.
  split.
  - intros Hl.
    assert (L : (int_max_str_digits <? String.length ds)%nat = false)
      by (apply Nat.ltb_ge; lia).
    assert (L' : (int_max_str_digits <? S (String.length ds))%nat = false)
      by (apply Nat.ltb_ge; lia).
    rewrite L in P. rewrite L' in P'.
    assert (H0 : parse_var_code padded = parse_var_code var_code)
      by congruence.
    split; [exact H0|]. split; [exact P|].
    intros. unfold lookup_name_by_year. now rewrite H0.
  - intros Hl.
    assert (L : (int_max_str_digits <? String.length ds)%nat = false)
      by (apply Nat.ltb_ge; lia).
    assert (L' : (int_max_str_digits <? S (String.length ds))%nat = true)
      by (apply Nat.ltb_lt; lia).
    rewrite L in P. rewrite L' in P'. rewrite Hl in P'. auto.
Qed.

Lemma zero_padding_is_irrelevant_witness :
  parse_var_code " FE_Var_033 " = parse_var_code "  FE_Var_33" /\
  parse_var_code "  FE_Var_33" = inr (Some ("FE", 33%Z)) /\
  forall (DF_METADATA : list MetadataRow) (today_year : Z)
         (to_numeric_text : string -> option (Z + pyfloat))
         (format_id anogravable : Z) (fields : list string) (sep : string)
         (current_year : option Z),
    lookup_name_by_year DF_METADATA today_year to_numeric_text
      format_id " FE_Var_033 " anogravable fields sep current_year
    = lookup_name_by_year DF_METADATA today_year to_numeric_text
        format_id "  FE_Var_33" anogravable fields sep current_year.
Proof.
  apply (proj1 (zero_padding_is_irrelevant "  FE_Var_33" " FE_Var_033 "
                  "FE_" "Var_" "33" eq_refl eq_refl eq_refl eq_refl
                  ltac:(discriminate) eq_refl)).
  unfold int_max_str_digits. cbn [String.length]. lia.
Defined.

(** *** Rows *)

Lemma loc_head {A : Type} (m : A -> option bool) (d : list A) (x : A)
      (rest : list A) :
  loc m d = x :: rest ->
  exists l1 l2, d = l1 ++ x :: l2 /\
                (forall y, In y l1 -> m y <> Some true) /\ m x = Some true.
Proof.
  unfold loc. induction d as [|a d IH]; cbn [filter]; [discriminate|].
  destruct (m a) as [[|]|] eqn:E.
  - intros H. injection H as <- _. exists [], d.
    repeat split; auto; intros y [].
  - intros H. destruct (IH H) as (l1 & l2 & -> & Hb & Hx).
    exists (a :: l1), l2. repeat split; auto.
    intros y [<-|Hy]; [congruence|auto].
  - intros H. destruct (IH H) as (l1 & l2 & -> & Hb & Hx).
    exists (a :: l1), l2. repeat split; auto.
    intros y [<-|Hy]; [congruence|auto].
Qed.

Section LookupExtras.

Variable DF_METADATA : list MetadataRow.
Variable today_year : Z.
Variable to_numeric_text : string -> option (Z + pyfloat).

Local Abbreviation lookup :=
  (lookup_name_by_year DF_METADATA today_year to_numeric_text).
Local Abbreviation normalized cy := (normalize to_numeric_text cy).
Local Abbreviation castable cy :=
  (casts_safely DF_METADATA to_numeric_text cy).
Local Abbreviation year_of cy :=
  (match cy with None => today_year | Some y => y end).

(** X11.  When several rows of the sheet pass the filter, the result is
    read from the one that comes first in the sheet: no row before it
    passes, and [name_var] and [composed_name] are taken from it. *)
Theorem first_row_in_sheet_order_wins
        (format_id : Z) (var_code : string) (anogravable : Z)
        (fields : list string) (sep : string) (current_year : option Z)
        (res : Resolved) :
  lookup format_id var_code anogravable fields sep current_year
  = inr (Some res) ->
  exists before r after,
    DF_METADATA = before ++ r :: after /\
    (forall r', In r' before ->
                mask format_id (var_number (meta res)) anogravable
                     (normalized (year_of current_year) r') <> Some true) /\
    mask format_id (var_number (meta res)) anogravable
         (normalized (year_of current_year) r) = Some true /\
    name_var res
    = row_get (normalized (year_of current_year) r) "Descripción de la Casilla" /\
    composed_name res
    = compose sep (collect_parts (normalized (year_of current_year) r) fields).
Proof.
  intros H. apply lookup_Some in H.
  destruct H as (row & rest & _ & _ & Hloc & Hname & Hcomp).
  apply loc_head in Hloc. destruct Hloc as (l1 & l2 & Hd & Hb & Hx).
  apply map_eq_app in Hd. destruct Hd as (before & tl & -> & <- & Htl).
  apply map_eq_cons in Htl. destruct Htl as (r & after & -> & <- & _).
  exists before, r, after. repeat split; try assumption.
  intros r' Hr'. apply Hb. now apply in_map.
Qed.

(** X12.  On a sheet whose numeric columns can be cast, a row whose last
    year is missing after normalization has no upper bound: if it has the
    format and the number asked for, the lookup finds a result for every tax
    year from the row's first year on. *)
Theorem open_ended_row_matches_later_years
        (format_id : Z) (var_code p : string) (v : Z)
        (fields : list string) (sep : string) (current_year : option Z)
        (r : MetadataRow) (first_year : Z) :
  parse_var_code var_code = inr (Some (p, v)) ->
  castable (year_of current_year) = true ->
  In r DF_METADATA ->
  Codigo_del_Formato r = PInt format_id ->
  variable (normalized (year_of current_year) r) = Some v ->
  desde (normalized (year_of current_year) r) = Some first_year ->
  hasta (normalized (year_of current_year) r) = None ->
  forall anogravable : Z,
    (first_year <= anogravable)%Z ->
    exists res,
      lookup format_id var_code anogravable fields sep current_year
      = inr (Some res).
Proof.
  intros Hp Hc Hr Hf Hv Hd Hh anogravable Hy.
  destruct (lookup_finds DF_METADATA today_year to_numeric_text
              format_id var_code p v anogravable fields sep current_year r
              Hp Hc Hr) as (res & H & _); [|eauto].
  apply mask_true. cbn [source normalize].
  split; [apply eq_format_true; now left|].
  repeat split; eauto.
Qed.

(** X13.  A column named in [compose_fields] that the sheet does not have is
    passed over: the lookup returns the same with or without it in the
    list. *)
Theorem unknown_compose_field_is_skipped
        (format_id : Z) (var_code : string) (anogravable : Z)
        (before : list string) (col : string) (after : list string)
        (sep : string) (current_year : option Z) :
  ~ In col ["Código del Formato"; "Código de la Variable";
            "Año Gravable Desde"; "Año Gravable Hasta"] ->
  (forall r, In r DF_METADATA -> assoc col (otras r) = None) ->
  lookup format_id var_code anogravable (before ++ col :: after) sep current_year
  = lookup format_id var_code anogravable (before ++ after) sep current_year.
Proof.
  intros Hcol Hno. rewrite !lookup_eq.
  destruct (parse_var_code var_code) as [e|[[p v]|]]; try reflexivity.
  destruct (castable (year_of current_year)); [|reflexivity].
  destruct (loc (mask format_id v anogravable)
                (map (normalized (year_of current_year)) DF_METADATA))
    as [|row rest] eqn:E; [reflexivity|].
  assert (Hrow : In row (map (normalized (year_of current_year)) DF_METADATA)).
  { assert (H : In row (loc (mask format_id v anogravable)
                            (map (normalized (year_of current_year))
                                 DF_METADATA)))
      by (rewrite E; now left).
    now apply loc_In in H. }
  apply in_map_iff in Hrow. destruct Hrow as (r & <- & Hr).
  assert (Hget : notna (row_get (normalized (year_of current_year) r) col)
                 = false).
  { rewrite (row_get_other _ col Hcol). cbn [source normalize].
    now rewrite (Hno r Hr). }
  rewrite !collect_parts_present, !present_parts_app.
  change (col :: after) with ([col] ++ after).
  rewrite present_parts_app.
  assert (Hone : present_parts (normalized (year_of current_year) r) [col] = []).
  { apply present_parts_none. intros c [<-|[]]. exact Hget. }
  now rewrite Hone.
Qed.

End LookupExtras.

(** X14.  The clock and [current_year] are read for rows marked "Vigente"
    only: on a sheet without such a row the lookup returns the same
    whatever the year of the call and whatever [current_year] is given. *)
Theorem sheet_without_vigente_ignores_the_year
        (DF_METADATA : list MetadataRow)
        (to_numeric_text : string -> option (Z + pyfloat))
        (format_id : Z) (var_code : string) (anogravable : Z)
        (fields : list string) (sep : string)
        (today_year today_year' : Z) (current_year current_year' : option Z) :
  (forall r, In r DF_METADATA -> mask_vig (Ano_Gravable_Hasta r) = false) ->
  lookup_name_by_year DF_METADATA today_year to_numeric_text
    format_id var_code anogravable fields sep current_year
  = lookup_name_by_year DF_METADATA today_year' to_numeric_text
      format_id var_code anogravable fields sep current_year'.
Proof.
  intros Hno. unfold lookup_name_by_year.
  destruct (parse_var_code var_code) as [e|[[p v]|]]; try reflexivity.
  cbn [bind].
  assert (E : forall cy cy',
             normalize_sheet DF_METADATA to_numeric_text cy
             = normalize_sheet DF_METADATA to_numeric_text cy').
  { intros cy cy'. unfold normalize_sheet. f_equal. f_equal.
    apply map_ext_in. intros r Hr.
    unfold hasta_vigente. now rewrite (Hno r Hr). }
  now rewrite (E _ (match current_year' with
                    | Some y => y
                    | None => today_year'
                    end)).
Qed.

Lemma first_row_in_sheet_order_wins_witness :
  exists res,
    lookup_name_by_year Hojas.hoja 2025 Hojas.lee_digitos
      210 "VAR_33" 2019 ["Número Casilla"] "_" None = inr (Some res) /\
    name_var res = PStr "Renta hasta 2019" /\
    exists before r after,
      Hojas.hoja = before ++ r :: after /\
      (forall r', In r' before ->
                  mask 210 (var_number (meta res)) 2019
                       (normalize Hojas.lee_digitos 2025 r') <> Some true) /\
      mask 210 (var_number (meta res)) 2019
           (normalize Hojas.lee_digitos 2025 r) = Some true /\
      name_var res
      = row_get (normalize Hojas.lee_digitos 2025 r)
                "Descripción de la Casilla" /\
      composed_name res
      = compose "_" (collect_parts (normalize Hojas.lee_digitos 2025 r)
                                   ["Número Casilla"]).
Proof.
  eexists. split; [vm_compute; reflexivity|]. split; [reflexivity|].
  apply (first_row_in_sheet_order_wins Hojas.hoja 2025 Hojas.lee_digitos
           210 "VAR_33" 2019 ["Número Casilla"] "_" None).
  vm_compute. reflexivity.
Defined.

Lemma open_ended_row_matches_later_years_witness :
  exists res,
    lookup_name_by_year Hojas.hoja 2025 Hojas.lee_digitos
      210 "VAR_33" 2040 default_compose_fields default_sep None
    = inr (Some res).
Proof.
  apply (open_ended_row_matches_later_years Hojas.hoja 2025
           Hojas.lee_digitos 210 "VAR_33" "" 33
           default_compose_fields default_sep None Hojas.abierta 2018).
  - reflexivity.
  - reflexivity.
  - right. left. reflexivity.
  - reflexivity.
  - reflexivity.
  - reflexivity.
  - reflexivity.
  - lia.
Defined.

Lemma unknown_compose_field_is_skipped_witness :
  lookup_name_by_year Hojas.hoja 2025 Hojas.lee_digitos
    210 "VAR_33" 2019 (["Número Casilla"] ++ "Sin columna" :: ["Año Gravable Desde"])
    "_" None
  = lookup_name_by_year Hojas.hoja 2025 Hojas.lee_digitos
      210 "VAR_33" 2019 (["Número Casilla"] ++ ["Año Gravable Desde"]) "_" None.
Proof.
  apply (unknown_compose_field_is_skipped Hojas.hoja 2025 Hojas.lee_digitos).
  - cbn [In]. intros [H|[H|[H|[H|[]]]]]; discriminate.
  - intros r [<-|[<-|[]]]; reflexivity.
Defined.

Lemma sheet_without_vigente_ignores_the_year_witness :
  lookup_name_by_year Hojas.hoja 2025 Hojas.lee_digitos
    210 "VAR_33" 2019 default_compose_fields default_sep None
  = lookup_name_by_year Hojas.hoja 1999 Hojas.lee_digitos
      210 "VAR_33" 2019 default_compose_fields default_sep (Some 2000%Z).
Proof.
  apply (sheet_without_vigente_ignores_the_year Hojas.hoja Hojas.lee_digitos).
  intros r [<-|[<-|[]]]; reflexivity.
Defined.

End VariablesExtras.

(** ** The cell cleaner *)

Module CleanFacts.
Import Py Variables VariablesFacts VariablesExtras Clean.

Lemma upper_E_not_digit (c : ascii) : upper c = "E"%char -> is_digit c = false.
Proof.
  destruct c as [[] [] [] [] [] [] [] []]; vm_compute; intros H;
    try reflexivity; discriminate.
Qed.

(** A run of digits is not the special text. *)
Lemma digits_not_special (s : string) :
  all_digits s = true -> String.eqb (str_upper s) "0E-10" = false.
Proof.
  intros Hd. apply String.eqb_neq. intros H.
  destruct s as [|a [|b s]]; try discriminate H.
  unfold str_upper in H. cbn [map_string] in H.
  injection H as _ Hb _. apply upper_E_not_digit in Hb.
  cbn [all_digits] in Hd. rewrite Hb in Hd.
  rewrite andb_false_r in Hd. cbn in Hd. discriminate.
Qed.

Section CleanCellFacts.

Variable float : Type.
Variable is_integer : float -> bool.
Variable int_of_float : float -> Z.
Variable to_numeric_raise : string -> option (number float).

Local Abbreviation clean :=
  (clean_cell is_integer int_of_float to_numeric_raise).

(** X15.  With [keep_leading_zero_ids], a cell that is, once trimmed, a zero
    followed by more digits stays a text, the trimmed one, whatever number
    pandas reads in it; without the flag it becomes the integer pandas
    reads. *)
Theorem leading_zero_ids_stay_text (s ds : string) :
  strip s = String "0" ds -> ds <> "" -> all_digits ds = true ->
  clean s true = CText (strip s) /\
  forall z, to_numeric_raise (strip s) = Some (NInt z) ->
            clean s false = CInt z.
Proof.
  intros Hs Hne Hd.
  assert (Hall : all_digits (strip s) = true)
    by (rewrite Hs; cbn [all_digits]; now rewrite Hd).
  unfold clean_cell. cbv zeta. rewrite (digits_not_special _ Hall).
  split.
  - rewrite Hs in *. cbn [fullmatch_digits first_is_zero String.length].
    rewrite Hall. destruct ds; [contradiction|]. reflexivity.
  - intros z Hz. cbn [andb]. now rewrite Hz.
Qed.

(** X16.  Whatever comes out of a cell, a text that comes out is the trimmed
    cell itself, and a float that comes out is not a whole number: whole
    floats leave as integers. *)
Theorem cleaned_cell_shape (s : string) (keep_leading_zero_ids : bool) :
  match clean s keep_leading_zero_ids with
  | CInt _ => True
  | CFloat f => is_integer f = false /\
                to_numeric_raise (strip s) = Some (NFloat f)
  | CText t => t = strip s
  end.
Proof.
  unfold clean_cell. cbv zeta.
  destruct (String.eqb (str_upper (strip s)) "0E-10"); [exact I|].
  destruct (keep_leading_zero_ids && fullmatch_digits (strip s)
            && (1 <? String.length (strip s))%nat && first_is_zero (strip s));
    [reflexivity|].
  destruct (to_numeric_raise (strip s)) as [[z|f]|]; try exact I; try reflexivity.
  destruct (is_integer f) eqn:E; [exact I|]. auto.
Qed.

(** X17.  Blanks around a cell do not count, and cleaning is stable on what
    it leaves as text: a cell that came out as a text comes out as the same
    text when cleaned again. *)
Theorem clean_cell_ignores_surrounding_blanks
        (s : string) (keep_leading_zero_ids : bool) :
  clean (strip s) keep_leading_zero_ids = clean s keep_leading_zero_ids /\
  forall t, clean s keep_leading_zero_ids = CText t ->
            clean t keep_leading_zero_ids = CText t.
Proof.
  assert (H : clean (strip s) keep_leading_zero_ids
              = clean s keep_leading_zero_ids)
    by (unfold clean_cell; cbv zeta; now rewrite strip_idem).
  split; [exact H|]. intros t Ht.
  pose proof (cleaned_cell_shape s keep_leading_zero_ids) as Hsh.
  rewrite Ht in Hsh. subst t. now rewrite H.
Qed.

End CleanCellFacts.

(** The flag on a cell that holds an identifier, with integers standing in
    for floats and a reading of digits only. *)
Lemma leading_zero_ids_stay_text_witness :
  clean_cell (fun _ : Z => true) (fun f : Z => f)
             (fun s => option_map NInt (Ejemplos.solo_digitos s))
             " 001234 " true
  = CText "001234" /\
  forall z,
    option_map (@NInt Z) (Ejemplos.solo_digitos (strip " 001234 "))
    = Some (NInt z) ->
    clean_cell (fun _ : Z => true) (fun f : Z => f)
               (fun s => option_map NInt (Ejemplos.solo_digitos s))
               " 001234 " false
    = CInt z.
Proof.
  apply (leading_zero_ids_stay_text Z (fun _ => true) (fun f => f)
           (fun s => option_map NInt (Ejemplos.solo_digitos s))
           " 001234 " "01234").
  - reflexivity.
  - discriminate.
  - reflexivity.
Defined.

End CleanFacts.
